(** * Reconciliation of Apstra resources: the modules [resources], [design]
      and [blueprint] of the collection cremsburg.apstra

    Each module fetches the collection of one resource kind, scans it for an
    entry that carries the declared identity, and then deletes, creates or
    leaves the resource alone, reporting [changed] and [data] through
    [module.exit_json].  The Python functions are embedded one by one, in a
    small monad that records the remote calls and the three ways a call can
    stop: [exit_json], [fail_json], or a Python exception. *)

From Stdlib Require Import String List ZArith Bool Lia.
Import ListNotations.
Open Scope string_scope.

Set Warnings "-register-all".

(** ** Values

    What [response.json] and [module.params] hold: the Python image of a JSON
    document.  A dict keeps its insertion order, so it is an association list;
    a key occurs once in a dict built by the code or by the JSON parser.
    Numbers are integers (identifiers, names and labels of the service are
    strings; floats do not occur in what the modules compare). *)

Inductive Json : Type :=
  | JNull
  | JBool (b : bool)
  | JInt (n : Z)
  | JStr (s : string)
  | JList (l : list Json)
  | JDict (d : list (string * Json)).

Definition Dict := list (string * Json).

Fixpoint lookup (k : string) (d : Dict) : option Json :=
  match d with
  | [] => None
  | (k', v) :: d' => if String.eqb k k' then Some v else lookup k d'
  end.

(** [d[k] = v] on a dict: the value is replaced in place when the key is
    there, the binding is added at the end otherwise. *)
Fixpoint setitem (d : Dict) (k : string) (v : Json) : Dict :=
  match d with
  | [] => [(k, v)]
  | (k', v') :: d' =>
      if String.eqb k k' then (k', v) :: d' else (k', v') :: setitem d' k v
  end.

(** The key of a dict entry, when the entry is a dict and has it. *)
Definition field (e : Json) (k : string) : option Json :=
  match e with
  | JDict d => lookup k d
  | _ => None
  end.

Definition bool_as_int (b : bool) : Z := if b then 1%Z else 0%Z.

(** Python's [==] on these values: [True == 1], lists compare element by
    element, dicts compare as maps (the order of keys is irrelevant), values
    of different types are unequal. *)
Fixpoint py_eq (a b : Json) : bool :=
  match a, b with
  | JNull, JNull => true
  | JBool x, JBool y => Bool.eqb x y
  | JBool x, JInt n => Z.eqb (bool_as_int x) n
  | JInt n, JBool y => Z.eqb n (bool_as_int y)
  | JInt n, JInt m => Z.eqb n m
  | JStr s, JStr t => String.eqb s t
  | JList xs, JList ys =>
      (fix all2 (xs ys : list Json) {struct xs} : bool :=
         match xs, ys with
         | [], [] => true
         | x :: xs', y :: ys' => py_eq x y && all2 xs' ys'
         | _, _ => false
         end) xs ys
  | JDict d, JDict e =>
      Nat.eqb (length d) (length e) &&
      (fix sub (d : Dict) {struct d} : bool :=
         match d with
         | [] => true
         | (k, v) :: d' =>
             match lookup k e with
             | Some w => py_eq v w
             | None => false
             end && sub d'
         end) d
  | _, _ => false
  end.

(** ** Remote calls

    The paths are f-strings: literal text and interpolated values.  The
    interpolated value is kept as it is; [render] gives the text for the
    scalars ([str] of a list or dict is not spelled out). *)

Inductive Frag : Type :=
  | Lit (s : string)
  | Fmt (v : Json).

Definition Path := list Frag.

Definition digit (n : nat) : string :=
  String (Ascii.ascii_of_nat (48 + n)) "".

Fixpoint decimal (fuel : nat) (n : nat) : string :=
  match fuel with
  | O => ""
  | S fuel' =>
      if Nat.ltb n 10 then digit n
      else decimal fuel' (Nat.div n 10) ++ digit (Nat.modulo n 10)
  end.

Definition py_str (v : Json) : option string :=
  match v with
  | JNull => Some "None"
  | JBool true => Some "True"
  | JBool false => Some "False"
  | JInt n =>
      let m := Z.abs_nat n in
      Some ((if Z.ltb n 0 then "-" else "") ++ decimal (S m) m)
  | JStr s => Some s
  | JList _ | JDict _ => None
  end.

Fixpoint render (p : Path) : option string :=
  match p with
  | [] => Some ""
  | Lit s :: p' => option_map (append s) (render p')
  | Fmt v :: p' =>
      match py_str v, render p' with
      | Some s, Some t => Some (s ++ t)
      | _, _ => None
      end
  end.

Inductive Request : Type :=
  | Get (path : Path)
  | Post (path : Path) (data : Json)
  | Delete (path : Path).

(** What the transport hands back: [status_code], [json] and [info]. *)
Record Response : Type := mkResponse {
  status_code : Z;
  json : Json;
  info : Json
}.

(** The helper class of module_utils is not part of the embedded files: the
    transport is a parameter, any function from requests to responses. *)
Definition Rest := Request -> Response.

Definition is_mutation (r : Request) : bool :=
  match r with
  | Get _ => false
  | Post _ _ | Delete _ => true
  end.

(** ** The ways a call stops *)

Inductive PyExc : Type :=
  | KeyError (k : string)
  | TypeError.

Inductive Msg : Type :=
  | MsgFetchFailed (info : Json)
  | MsgNotDict
  | MsgException (e : PyExc).

(** [module.exit_json(changed=..., data=...)] and [module.fail_json(msg=...)]:
    both end the process. *)
Inductive Outcome : Type :=
  | ExitJson (changed : bool) (data : Json)
  | FailJson (msg : Msg).

Inductive Res (A : Type) : Type :=
  | Ok (a : A)
  | Exit (o : Outcome)
  | Raise (e : PyExc).

Arguments Ok {A} a.
Arguments Exit {A} o.
Arguments Raise {A} e.

(** A computation: how it stops, and the remote calls it made, in order. *)
Definition M (A : Type) : Type := (Res A * list Request)%type.

Definition ret {A} (a : A) : M A := (Ok a, []).

Definition bind {A B} (m : M A) (k : A -> M B) : M B :=
  match m with
  | (Ok a, t) => let (r, t') := k a in (r, (t ++ t')%list)
  | (Exit o, t) => (Exit o, t)
  | (Raise e, t) => (Raise e, t)
  end.

Notation "x <- m ;; k" := (bind m (fun x => k))
  (at level 61, m at next level, right associativity).
Notation "m ;;; k" := (bind m (fun _ => k))
  (at level 61, right associativity).

Definition raise {A} (e : PyExc) : M A := (Raise e, []).
Definition exit_json {A} (changed : bool) (data : Json) : M A :=
  (Exit (ExitJson changed data), []).
Definition fail_json {A} (msg : Msg) : M A := (Exit (FailJson msg), []).

Definition call (rest : Rest) (r : Request) : M Response :=
  (Ok (rest r), [r]).

Record AnsibleModule : Type := mkModule { params : Json }.

(** ** Python primitives *)

(** [x[k]] with a string key. *)
Definition subscript (x : Json) (k : string) : M Json :=
  match x with
  | JDict d =>
      match lookup k d with
      | Some v => ret v
      | None => raise (KeyError k)
      end
  | _ => raise TypeError
  end.

Fixpoint chars (s : string) : list Json :=
  match s with
  | EmptyString => []
  | String c s' => JStr (String c "") :: chars s'
  end.

(** What [for each in x] runs over: the elements of a list, the keys of a
    dict, the characters of a string; the other values are not iterable. *)
Definition py_iter (x : Json) : M (list Json) :=
  match x with
  | JList l => ret l
  | JDict d => ret (map (fun kv => JStr (fst kv)) d)
  | JStr s => ret (chars s)
  | _ => raise TypeError
  end.

Definition isinstance_dict (x : Json) : bool :=
  match x with
  | JDict _ => true
  | _ => false
  end.

Definition is_True (v : Json) : bool :=
  match v with JBool true => true | _ => false end.

Definition is_False (v : Json) : bool :=
  match v with JBool false => true | _ => false end.

(** A [for] loop that updates one local variable. *)
Fixpoint for_each {A S} (xs : list A) (s : S) (body : A -> S -> M S) : M S :=
  match xs with
  | [] => ret s
  | x :: xs' => s' <- body x s ;; for_each xs' s' body
  end.

(** [x[a][b]] *)
Definition subscript2 (x : Json) (a b : string) : M Json :=
  y <- subscript x a ;; subscript y b.

(** [try: ... except Exception as e: module.fail_json(msg=to_native(e))]:
    [SystemExit], which [exit_json] and [fail_json] raise, is not an
    [Exception] and passes through. *)
Definition try_except (body : M unit) : M unit :=
  match body with
  | (Raise e, t) => (Exit (FailJson (MsgException e)), t)
  | other => other
  end.

(** ** plugins/modules/resources.py *)

Module Resources.

(** The payload of [external_routers] (lines 377-380). *)
Definition external_router_data (module : AnsibleModule) : M Dict :=
  display_name <- subscript (params module) "display_name" ;;
  asn <- subscript (params module) "asn" ;;
  address <- subscript (params module) "address" ;;
  ipv6_address <- subscript (params module) "ipv6_address" ;;
  ret [("display_name", display_name); ("asn", asn); ("address", address);
       ("ipv6_address", ipv6_address)].

Definition external_routers (resources : Json) (module : AnsibleModule)
    (rest : Rest) : M unit :=
  (if isinstance_dict resources then ret tt else fail_json MsgNotDict) ;;;
  let external_router := [] in
  let external_router := setitem external_router "display_name" JNull in
  let external_router := setitem external_router "id" JNull in
  let external_router := setitem external_router "provisioned" (JBool false) in
  items <- subscript resources "items" ;;
  items <- py_iter items ;;
  external_router <- for_each items external_router (fun each external_router =>
    l <- subscript each "display_name" ;;
    r <- subscript (params module) "display_name" ;;
    if py_eq l r then
      v <- subscript each "display_name" ;;
      let external_router := setitem external_router "display_name" v in
      v <- subscript each "id" ;;
      let external_router := setitem external_router "id" v in
      let external_router := setitem external_router "provisioned" (JBool true) in
      ret external_router
    else ret external_router) ;;
  state <- subscript (params module) "state" ;;
  if py_eq state (JStr "absent") then
    provisioned <- subscript (JDict external_router) "provisioned" ;;
    if is_True provisioned then
      id <- subscript (JDict external_router) "id" ;;
      response <- call rest (Delete [Lit "resources/external-routers/"; Fmt id]) ;;
      exit_json true (json response)
    else
      exit_json false (JStr "External Router does not exist, exiting")
  else
    provisioned <- subscript (JDict external_router) "provisioned" ;;
    (if is_False provisioned then
       data <- external_router_data module ;;
       response <- call rest (Post [Lit "resources/external-routers"] (JDict data)) ;;
       id <- subscript (json response) "id" ;;
       let data := setitem data "id" id in
       exit_json true (json response)
     else ret tt) ;;;
    exit_json false (JDict external_router).

(** The payload of [ipv4_pool] (lines 446-454) and of [ipv6_pool] (lines
    520-528): every subnet is wrapped into a dict with the one key
    [network]. *)
Definition subnets_payload (module : AnsibleModule) : M (list Json) :=
  subnets <- subscript (params module) "subnets" ;;
  subnets <- py_iter subnets ;;
  for_each subnets [] (fun each subnets_payload =>
    let networks := [] in
    let networks := setitem networks "network" each in
    ret (subnets_payload ++ [JDict networks])%list).

Definition ipv4_pool_data (module : AnsibleModule) : M Dict :=
  subnets_payload <- subnets_payload module ;;
  display_name <- subscript (params module) "display_name" ;;
  tags <- subscript (params module) "tags" ;;
  ret [("display_name", display_name); ("subnets", JList subnets_payload);
       ("tags", tags)].

Definition ipv4_pool (resources : Json) (module : AnsibleModule)
    (rest : Rest) : M unit :=
  (if isinstance_dict resources then ret tt else fail_json MsgNotDict) ;;;
  let ipv4_pool := [] in
  let ipv4_pool := setitem ipv4_pool "display_name" JNull in
  let ipv4_pool := setitem ipv4_pool "id" JNull in
  let ipv4_pool := setitem ipv4_pool "provisioned" (JBool false) in
  items <- subscript resources "items" ;;
  items <- py_iter items ;;
  ipv4_pool <- for_each items ipv4_pool (fun each ipv4_pool =>
    l <- subscript each "display_name" ;;
    r <- subscript (params module) "display_name" ;;
    if py_eq l r then
      v <- subscript each "display_name" ;;
      let ipv4_pool := setitem ipv4_pool "display_name" v in
      v <- subscript each "id" ;;
      let ipv4_pool := setitem ipv4_pool "id" v in
      let ipv4_pool := setitem ipv4_pool "provisioned" (JBool true) in
      ret ipv4_pool
    else ret ipv4_pool) ;;
  state <- subscript (params module) "state" ;;
  if py_eq state (JStr "absent") then
    provisioned <- subscript (JDict ipv4_pool) "provisioned" ;;
    if is_True provisioned then
      id <- subscript (JDict ipv4_pool) "id" ;;
      response <- call rest (Delete [Lit "resources/ip-pools/"; Fmt id]) ;;
      exit_json true (json response)
    else
      exit_json false (JStr "IP Pool does not exist, exiting")
  else
    provisioned <- subscript (JDict ipv4_pool) "provisioned" ;;
    (if is_False provisioned then
       data <- ipv4_pool_data module ;;
       response <- call rest (Post [Lit "resources/ip-pools"] (JDict data)) ;;
       id <- subscript (json response) "id" ;;
       let data := setitem data "id" id in
       exit_json true (json response)
     else ret tt) ;;;
    exit_json false (JDict ipv4_pool).

Definition ipv6_pool_data (module : AnsibleModule) : M Dict :=
  subnets_payload <- subnets_payload module ;;
  display_name <- subscript (params module) "display_name" ;;
  tags <- subscript (params module) "tags" ;;
  ret [("display_name", display_name); ("subnets", JList subnets_payload);
       ("tags", tags)].

Definition ipv6_pool (resources : Json) (module : AnsibleModule)
    (rest : Rest) : M unit :=
  (if isinstance_dict resources then ret tt else fail_json MsgNotDict) ;;;
  let ipv6_pool := [] in
  let ipv6_pool := setitem ipv6_pool "display_name" JNull in
  let ipv6_pool := setitem ipv6_pool "id" JNull in
  let ipv6_pool := setitem ipv6_pool "provisioned" (JBool false) in
  items <- subscript resources "items" ;;
  items <- py_iter items ;;
  ipv6_pool <- for_each items ipv6_pool (fun each ipv6_pool =>
    l <- subscript each "display_name" ;;
    r <- subscript (params module) "display_name" ;;
    if py_eq l r then
      v <- subscript each "display_name" ;;
      let ipv6_pool := setitem ipv6_pool "display_name" v in
      v <- subscript each "id" ;;
      let ipv6_pool := setitem ipv6_pool "id" v in
      let ipv6_pool := setitem ipv6_pool "provisioned" (JBool true) in
      ret ipv6_pool
    else ret ipv6_pool) ;;
  state <- subscript (params module) "state" ;;
  if py_eq state (JStr "absent") then
    provisioned <- subscript (JDict ipv6_pool) "provisioned" ;;
    if is_True provisioned then
      id <- subscript (JDict ipv6_pool) "id" ;;
      response <- call rest (Delete [Lit "resources/ipv6-pools/"; Fmt id]) ;;
      exit_json true (json response)
    else
      exit_json false (JStr "IPv6 Pool does not exist, exiting")
  else
    provisioned <- subscript (JDict ipv6_pool) "provisioned" ;;
    (if is_False provisioned then
       data <- ipv6_pool_data module ;;
       response <- call rest (Post [Lit "resources/ipv6-pools"] (JDict data)) ;;
       id <- subscript (json response) "id" ;;
       let data := setitem data "id" id in
       exit_json true (json response)
     else ret tt) ;;;
    exit_json false (JDict ipv6_pool).

(** The payload of [asn_pool], [vlan_pool] and [vni_pool] (lines 594-596,
    662-664, 730-732): the ranges go through unchanged. *)
Definition asn_pool_data (module : AnsibleModule) : M Dict :=
  display_name <- subscript (params module) "display_name" ;;
  ranges <- subscript (params module) "ranges" ;;
  tags <- subscript (params module) "tags" ;;
  ret [("display_name", display_name); ("ranges", ranges); ("tags", tags)].

Definition asn_pool (resources : Json) (module : AnsibleModule)
    (rest : Rest) : M unit :=
  (if isinstance_dict resources then ret tt else fail_json MsgNotDict) ;;;
  let asn_pool := [] in
  let asn_pool := setitem asn_pool "display_name" JNull in
  let asn_pool := setitem asn_pool "id" JNull in
  let asn_pool := setitem asn_pool "provisioned" (JBool false) in
  items <- subscript resources "items" ;;
  items <- py_iter items ;;
  asn_pool <- for_each items asn_pool (fun each asn_pool =>
    l <- subscript each "display_name" ;;
    r <- subscript (params module) "display_name" ;;
    if py_eq l r then
      v <- subscript each "display_name" ;;
      let asn_pool := setitem asn_pool "display_name" v in
      v <- subscript each "id" ;;
      let asn_pool := setitem asn_pool "id" v in
      let asn_pool := setitem asn_pool "provisioned" (JBool true) in
      ret asn_pool
    else ret asn_pool) ;;
  state <- subscript (params module) "state" ;;
  if py_eq state (JStr "absent") then
    provisioned <- subscript (JDict asn_pool) "provisioned" ;;
    if is_True provisioned then
      id <- subscript (JDict asn_pool) "id" ;;
      response <- call rest (Delete [Lit "resources/asn-pools/"; Fmt id]) ;;
      exit_json true (json response)
    else
      exit_json false (JStr "ASN Pool does not exist, exiting")
  else
    provisioned <- subscript (JDict asn_pool) "provisioned" ;;
    (if is_False provisioned then
       data <- asn_pool_data module ;;
       response <- call rest (Post [Lit "resources/asn-pools"] (JDict data)) ;;
       id <- subscript (json response) "id" ;;
       let data := setitem data "id" id in
       exit_json true (json response)
     else ret tt) ;;;
    exit_json false (JDict asn_pool).

Definition vlan_pool_data (module : AnsibleModule) : M Dict :=
  display_name <- subscript (params module) "display_name" ;;
  ranges <- subscript (params module) "ranges" ;;
  tags <- subscript (params module) "tags" ;;
  ret [("display_name", display_name); ("ranges", ranges); ("tags", tags)].

Definition vlan_pool (resources : Json) (module : AnsibleModule)
    (rest : Rest) : M unit :=
  (if isinstance_dict resources then ret tt else fail_json MsgNotDict) ;;;
  let vlan_pool := [] in
  let vlan_pool := setitem vlan_pool "display_name" JNull in
  let vlan_pool := setitem vlan_pool "id" JNull in
  let vlan_pool := setitem vlan_pool "provisioned" (JBool false) in
  items <- subscript resources "items" ;;
  items <- py_iter items ;;
  vlan_pool <- for_each items vlan_pool (fun each vlan_pool =>
    l <- subscript each "display_name" ;;
    r <- subscript (params module) "display_name" ;;
    if py_eq l r then
      v <- subscript each "display_name" ;;
      let vlan_pool := setitem vlan_pool "display_name" v in
      v <- subscript each "id" ;;
      let vlan_pool := setitem vlan_pool "id" v in
      let vlan_pool := setitem vlan_pool "provisioned" (JBool true) in
      ret vlan_pool
    else ret vlan_pool) ;;
  state <- subscript (params module) "state" ;;
  if py_eq state (JStr "absent") then
    provisioned <- subscript (JDict vlan_pool) "provisioned" ;;
    if is_True provisioned then
      id <- subscript (JDict vlan_pool) "id" ;;
      response <- call rest (Delete [Lit "resources/vlan-pools/"; Fmt id]) ;;
      exit_json true (json response)
    else
      exit_json false (JStr "VLAN Pool does not exist, exiting")
  else
    provisioned <- subscript (JDict vlan_pool) "provisioned" ;;
    (if is_False provisioned then
       data <- vlan_pool_data module ;;
       response <- call rest (Post [Lit "resources/vlan-pools"] (JDict data)) ;;
       id <- subscript (json response) "id" ;;
       let data := setitem data "id" id in
       exit_json true (json response)
     else ret tt) ;;;
    exit_json false (JDict vlan_pool).

Definition vni_pool_data (module : AnsibleModule) : M Dict :=
  display_name <- subscript (params module) "display_name" ;;
  ranges <- subscript (params module) "ranges" ;;
  tags <- subscript (params module) "tags" ;;
  ret [("display_name", display_name); ("ranges", ranges); ("tags", tags)].

Definition vni_pool (resources : Json) (module : AnsibleModule)
    (rest : Rest) : M unit :=
  (if isinstance_dict resources then ret tt else fail_json MsgNotDict) ;;;
  let vni_pool := [] in
  let vni_pool := setitem vni_pool "display_name" JNull in
  let vni_pool := setitem vni_pool "id" JNull in
  let vni_pool := setitem vni_pool "provisioned" (JBool false) in
  items <- subscript resources "items" ;;
  items <- py_iter items ;;
  vni_pool <- for_each items vni_pool (fun each vni_pool =>
    l <- subscript each "display_name" ;;
    r <- subscript (params module) "display_name" ;;
    if py_eq l r then
      v <- subscript each "display_name" ;;
      let vni_pool := setitem vni_pool "display_name" v in
      v <- subscript each "id" ;;
      let vni_pool := setitem vni_pool "id" v in
      let vni_pool := setitem vni_pool "provisioned" (JBool true) in
      ret vni_pool
    else ret vni_pool) ;;
  state <- subscript (params module) "state" ;;
  if py_eq state (JStr "absent") then
    provisioned <- subscript (JDict vni_pool) "provisioned" ;;
    if is_True provisioned then
      id <- subscript (JDict vni_pool) "id" ;;
      response <- call rest (Delete [Lit "resources/vni-pools/"; Fmt id]) ;;
      exit_json true (json response)
    else
      exit_json false (JStr "VNI Pool does not exist, exiting")
  else
    provisioned <- subscript (JDict vni_pool) "provisioned" ;;
    (if is_False provisioned then
       data <- vni_pool_data module ;;
       response <- call rest (Post [Lit "resources/vni-pools"] (JDict data)) ;;
       id <- subscript (json response) "id" ;;
       let data := setitem data "id" id in
       exit_json true (json response)
     else ret tt) ;;;
    exit_json false (JDict vni_pool).

Definition core (module : AnsibleModule) (rest : Rest) : M unit :=
  type <- subscript (params module) "type" ;;
  response <- call rest (Get [Lit "resources/"; Fmt type]) ;;
  (if negb (Z.eqb (status_code response) 200)
   then fail_json (MsgFetchFailed (info response)) else ret tt) ;;;
  let resources := json response in
  (type <- subscript (params module) "type" ;;
   if py_eq type (JStr "ip-pools") then ipv4_pool resources module rest else
   type <- subscript (params module) "type" ;;
   if py_eq type (JStr "ipv6-pools") then ipv6_pool resources module rest else
   type <- subscript (params module) "type" ;;
   if py_eq type (JStr "external-routers")
   then external_routers resources module rest else
   type <- subscript (params module) "type" ;;
   if py_eq type (JStr "asn-pools") then asn_pool resources module rest else
   type <- subscript (params module) "type" ;;
   if py_eq type (JStr "vlan-pools") then vlan_pool resources module rest else
   type <- subscript (params module) "type" ;;
   if py_eq type (JStr "vni-pools") then vni_pool resources module rest else
   ret tt) ;;;
  exit_json false resources.

Definition main (module : AnsibleModule) (rest : Rest) : M unit :=
  try_except (core module rest).

End Resources.

(** ** plugins/modules/design.py *)

Module Design.

(** The payload of [rack_types] (lines 603-609). *)
Definition rack_types_data (module : AnsibleModule) : M Dict :=
  access_switches <- subscript (params module) "access_switches" ;;
  description <- subscript (params module) "description" ;;
  display_name <- subscript (params module) "display_name" ;;
  id <- subscript (params module) "id" ;;
  leafs <- subscript (params module) "leafs" ;;
  logical_devices <- subscript (params module) "logical_devices" ;;
  servers <- subscript (params module) "servers" ;;
  ret [("access_switches", access_switches); ("description", description);
       ("display_name", display_name); ("id", id); ("leafs", leafs);
       ("logical_devices", logical_devices); ("servers", servers)].

Definition rack_types (resources : Json) (module : AnsibleModule)
    (rest : Rest) : M unit :=
  let design_element := [] in
  let design_element := setitem design_element "id" JNull in
  let design_element := setitem design_element "provisioned" (JBool false) in
  items <- subscript resources "items" ;;
  items <- py_iter items ;;
  design_element <- for_each items design_element (fun each design_element =>
    l <- subscript each "id" ;;
    r <- subscript (params module) "id" ;;
    if py_eq l r then
      v <- subscript each "id" ;;
      let design_element := setitem design_element "id" v in
      let design_element := setitem design_element "provisioned" (JBool true) in
      ret design_element
    else ret design_element) ;;
  state <- subscript (params module) "state" ;;
  if py_eq state (JStr "absent") then
    provisioned <- subscript (JDict design_element) "provisioned" ;;
    if is_True provisioned then
      id <- subscript (JDict design_element) "id" ;;
      response <- call rest (Delete [Lit "design/rack-types/"; Fmt id]) ;;
      exit_json true (json response)
    else
      exit_json false (JStr "Rack Type does not exist, exiting")
  else
    provisioned <- subscript (JDict design_element) "provisioned" ;;
    (if is_False provisioned then
       data <- rack_types_data module ;;
       response <- call rest (Post [Lit "design/rack-types"] (JDict data)) ;;
       exit_json true (json response)
     else ret tt) ;;;
    exit_json false (JDict design_element).

(** The payload of [interface_maps] (lines 660-663). *)
Definition interface_maps_data (module : AnsibleModule) : M Dict :=
  device_profile_id <- subscript (params module) "device_profile_id" ;;
  logical_device_id <- subscript (params module) "logical_device_id" ;;
  interfaces <- subscript (params module) "interfaces" ;;
  label <- subscript (params module) "label" ;;
  ret [("device_profile_id", device_profile_id);
       ("logical_device_id", logical_device_id);
       ("interfaces", interfaces); ("label", label)].

Definition interface_maps (resources : Json) (module : AnsibleModule)
    (rest : Rest) : M unit :=
  let design_element := [] in
  let design_element := setitem design_element "id" JNull in
  let design_element := setitem design_element "label" JNull in
  let design_element := setitem design_element "provisioned" (JBool false) in
  items <- subscript resources "items" ;;
  items <- py_iter items ;;
  design_element <- for_each items design_element (fun each design_element =>
    l <- subscript each "label" ;;
    r <- subscript (params module) "label" ;;
    if py_eq l r then
      v <- subscript each "id" ;;
      let design_element := setitem design_element "id" v in
      v <- subscript each "label" ;;
      let design_element := setitem design_element "label" v in
      let design_element := setitem design_element "provisioned" (JBool true) in
      ret design_element
    else ret design_element) ;;
  state <- subscript (params module) "state" ;;
  if py_eq state (JStr "absent") then
    provisioned <- subscript (JDict design_element) "provisioned" ;;
    if is_True provisioned then
      id <- subscript (JDict design_element) "id" ;;
      response <- call rest (Delete [Lit "design/interface-maps/"; Fmt id]) ;;
      exit_json true (json response)
    else
      exit_json false (JStr "Interface Mapping does not exist, exiting")
  else
    provisioned <- subscript (JDict design_element) "provisioned" ;;
    (if is_False provisioned then
       data <- interface_maps_data module ;;
       response <- call rest (Post [Lit "design/interface-maps"] (JDict data)) ;;
       exit_json true (json response)
     else ret tt) ;;;
    exit_json false (JDict design_element).

(** The payload of [logical_device] (lines 714-715). *)
Definition logical_device_data (module : AnsibleModule) : M Dict :=
  display_name <- subscript (params module) "display_name" ;;
  panels <- subscript (params module) "panels" ;;
  ret [("display_name", display_name); ("panels", panels)].

Definition logical_device (resources : Json) (module : AnsibleModule)
    (rest : Rest) : M unit :=
  let design_element := [] in
  let design_element := setitem design_element "display_name" JNull in
  let design_element := setitem design_element "id" JNull in
  let design_element := setitem design_element "provisioned" (JBool false) in
  items <- subscript resources "items" ;;
  items <- py_iter items ;;
  design_element <- for_each items design_element (fun each design_element =>
    l <- subscript each "display_name" ;;
    r <- subscript (params module) "display_name" ;;
    if py_eq l r then
      v <- subscript each "display_name" ;;
      let design_element := setitem design_element "display_name" v in
      v <- subscript each "id" ;;
      let design_element := setitem design_element "id" v in
      let design_element := setitem design_element "provisioned" (JBool true) in
      ret design_element
    else ret design_element) ;;
  state <- subscript (params module) "state" ;;
  if py_eq state (JStr "absent") then
    provisioned <- subscript (JDict design_element) "provisioned" ;;
    if is_True provisioned then
      id <- subscript (JDict design_element) "id" ;;
      response <- call rest (Delete [Lit "design/logical-devices/"; Fmt id]) ;;
      exit_json true (json response)
    else
      exit_json false (JStr "Logical Device does not exist, exiting")
  else
    provisioned <- subscript (JDict design_element) "provisioned" ;;
    (if is_False provisioned then
       data <- logical_device_data module ;;
       response <- call rest (Post [Lit "design/logical-devices"] (JDict data)) ;;
       id <- subscript (json response) "id" ;;
       let data := setitem data "id" id in
       exit_json true (json response)
     else ret tt) ;;;
    exit_json false (JDict design_element).

(** The payload of [templates] (lines 768-779): ten keys of the declared
    [design_template], the others are left out. *)
Definition templates_data (module : AnsibleModule) : M Dict :=
  asn_allocation_policy <-
    subscript2 (params module) "design_template" "asn_allocation_policy" ;;
  dhcp_service_intent <-
    subscript2 (params module) "design_template" "dhcp_service_intent" ;;
  display_name <-
    subscript2 (params module) "design_template" "display_name" ;;
  external_routing_policy <-
    subscript2 (params module) "design_template" "external_routing_policy" ;;
  fabric_addressing_policy <-
    subscript2 (params module) "design_template" "fabric_addressing_policy" ;;
  rack_type_counts <-
    subscript2 (params module) "design_template" "rack_type_counts" ;;
  rack_types <- subscript2 (params module) "design_template" "rack_types" ;;
  spine <- subscript2 (params module) "design_template" "spine" ;;
  type <- subscript2 (params module) "design_template" "type" ;;
  virtual_network_policy <-
    subscript2 (params module) "design_template" "virtual_network_policy" ;;
  ret [("asn_allocation_policy", asn_allocation_policy);
       ("dhcp_service_intent", dhcp_service_intent);
       ("display_name", display_name);
       ("external_routing_policy", external_routing_policy);
       ("fabric_addressing_policy", fabric_addressing_policy);
       ("rack_type_counts", rack_type_counts);
       ("rack_types", rack_types);
       ("spine", spine);
       ("type", type);
       ("virtual_network_policy", virtual_network_policy)].

Definition templates (resources : Json) (module : AnsibleModule)
    (rest : Rest) : M unit :=
  let design_element := [] in
  let design_element := setitem design_element "display_name" JNull in
  let design_element := setitem design_element "id" JNull in
  let design_element := setitem design_element "provisioned" (JBool false) in
  items <- subscript resources "items" ;;
  items <- py_iter items ;;
  design_element <- for_each items design_element (fun each design_element =>
    l <- subscript each "display_name" ;;
    r <- subscript2 (params module) "design_template" "display_name" ;;
    if py_eq l r then
      v <- subscript each "display_name" ;;
      let design_element := setitem design_element "display_name" v in
      v <- subscript each "id" ;;
      let design_element := setitem design_element "id" v in
      let design_element := setitem design_element "provisioned" (JBool true) in
      ret design_element
    else ret design_element) ;;
  state <- subscript (params module) "state" ;;
  if py_eq state (JStr "absent") then
    provisioned <- subscript (JDict design_element) "provisioned" ;;
    if is_True provisioned then
      id <- subscript (JDict design_element) "id" ;;
      response <- call rest (Delete [Lit "design/templates/"; Fmt id]) ;;
      exit_json true (json response)
    else
      exit_json false (JStr "Template does not exist, exiting")
  else
    provisioned <- subscript (JDict design_element) "provisioned" ;;
    (if is_False provisioned then
       data <- templates_data module ;;
       response <- call rest (Post [Lit "design/templates"] (JDict data)) ;;
       exit_json true (json response)
     else ret tt) ;;;
    exit_json false (JDict design_element).

Definition core (module : AnsibleModule) (rest : Rest) : M unit :=
  type <- subscript (params module) "type" ;;
  response <- call rest (Get [Lit "design/"; Fmt type]) ;;
  (if negb (Z.eqb (status_code response) 200)
   then fail_json (MsgFetchFailed (info response)) else ret tt) ;;;
  let resources := json response in
  (if isinstance_dict resources then ret tt else fail_json MsgNotDict) ;;;
  (type <- subscript (params module) "type" ;;
   if py_eq type (JStr "logical-devices")
   then logical_device resources module rest else
   type <- subscript (params module) "type" ;;
   if py_eq type (JStr "interface-maps")
   then interface_maps resources module rest else
   type <- subscript (params module) "type" ;;
   if py_eq type (JStr "rack-types") then rack_types resources module rest else
   type <- subscript (params module) "type" ;;
   if py_eq type (JStr "templates") then templates resources module rest else
   ret tt) ;;;
  exit_json false resources.

Definition main (module : AnsibleModule) (rest : Rest) : M unit :=
  try_except (core module rest).

End Design.

(** ** plugins/modules/blueprint.py *)

Module Blueprint.

(** The payload of [build_blueprint] (lines 168-171). *)
Definition design_element_data (module : AnsibleModule) : M Dict :=
  design <- subscript (params module) "design" ;;
  init_type <- subscript (params module) "init_type" ;;
  template_id <- subscript (params module) "template_id" ;;
  label <- subscript (params module) "label" ;;
  ret [("design", design); ("init_type", init_type);
       ("template_id", template_id); ("label", label)].

Definition build_blueprint (resources : Json) (module : AnsibleModule)
    (rest : Rest) : M unit :=
  let design_element := [] in
  let design_element := setitem design_element "id" JNull in
  let design_element := setitem design_element "label" JNull in
  let design_element := setitem design_element "provisioned" (JBool false) in
  items <- subscript resources "items" ;;
  items <- py_iter items ;;
  design_element <- for_each items design_element (fun each design_element =>
    l <- subscript each "label" ;;
    r <- subscript (params module) "label" ;;
    if py_eq l r then
      v <- subscript each "id" ;;
      let design_element := setitem design_element "id" v in
      v <- subscript each "label" ;;
      let design_element := setitem design_element "label" v in
      let design_element := setitem design_element "provisioned" (JBool true) in
      ret design_element
    else ret design_element) ;;
  state <- subscript (params module) "state" ;;
  if py_eq state (JStr "absent") then
    provisioned <- subscript (JDict design_element) "provisioned" ;;
    if is_True provisioned then
      id <- subscript (JDict design_element) "id" ;;
      response <- call rest (Delete [Lit "blueprints/"; Fmt id]) ;;
      exit_json true (json response)
    else
      exit_json false (JStr "Interface Mapping does not exist, exiting")
  else
    provisioned <- subscript (JDict design_element) "provisioned" ;;
    (if is_False provisioned then
       data <- design_element_data module ;;
       response <- call rest (Post [Lit "blueprints"] (JDict data)) ;;
       exit_json true (json response)
     else ret tt) ;;;
    exit_json false (JDict design_element).

Definition core (module : AnsibleModule) (rest : Rest) : M unit :=
  response <- call rest (Get [Lit "blueprints"]) ;;
  (if negb (Z.eqb (status_code response) 200)
   then fail_json (MsgFetchFailed (info response)) else ret tt) ;;;
  let resources := json response in
  (if isinstance_dict resources then ret tt else fail_json MsgNotDict) ;;;
  build_blueprint resources module rest ;;;
  exit_json false resources.

Definition main (module : AnsibleModule) (rest : Rest) : M unit :=
  try_except (core module rest).

End Blueprint.

(** ** The pattern the eleven functions share

    Every function above is the same scan and the same four-way decision,
    with its own keys, paths, message and payload.  [engine] is that pattern
    with the differences collected in a [Descriptor]; [kind_function_engine]
    below shows each embedded function to be [engine] at its descriptor, so
    that a property proved once for [engine] holds for all of them. *)

Record Descriptor : Type := mkDescriptor {
  checks_dict : bool;              (* isinstance test inside the function *)
  init_keys : list string;         (* keys set to None before the scan *)
  identity_key : string;           (* key compared on every entry *)
  declared : AnsibleModule -> M Json;  (* the declared identity value *)
  copied : list string;            (* keys copied from a matching entry *)
  collection : string;             (* collection path of create and delete *)
  missing_msg : string;            (* data of "absent, not found" *)
  payload : AnsibleModule -> M Dict;   (* payload of the create *)
  reads_id : bool                  (* response.json['id'] after the create *)
}.

Definition init (d : Descriptor) : Dict :=
  setitem (fold_left (fun acc k => setitem acc k JNull) (init_keys d) [])
          "provisioned" (JBool false).

Fixpoint copy_fields {A} (fs : list string) (each : Json) (acc : Dict)
    (k : Dict -> M A) : M A :=
  match fs with
  | [] => k acc
  | f :: fs' => v <- subscript each f ;; copy_fields fs' each (setitem acc f v) k
  end.

Definition scan_body (d : Descriptor) (module : AnsibleModule)
    (each : Json) (acc : Dict) : M Dict :=
  l <- subscript each (identity_key d) ;;
  r <- declared d module ;;
  if py_eq l r then
    copy_fields (copied d) each acc
      (fun acc => ret (setitem acc "provisioned" (JBool true)))
  else ret acc.

Definition decide (d : Descriptor) (acc : Dict) (module : AnsibleModule)
    (rest : Rest) : M unit :=
  state <- subscript (params module) "state" ;;
  if py_eq state (JStr "absent") then
    provisioned <- subscript (JDict acc) "provisioned" ;;
    if is_True provisioned then
      id <- subscript (JDict acc) "id" ;;
      response <- call rest (Delete [Lit (collection d ++ "/"); Fmt id]) ;;
      exit_json true (json response)
    else
      exit_json false (JStr (missing_msg d))
  else
    provisioned <- subscript (JDict acc) "provisioned" ;;
    (if is_False provisioned then
       data <- payload d module ;;
       response <- call rest (Post [Lit (collection d)] (JDict data)) ;;
       if reads_id d then
         id <- subscript (json response) "id" ;;
         let data := setitem data "id" id in
         exit_json true (json response)
       else exit_json true (json response)
     else ret tt) ;;;
    exit_json false (JDict acc).

Definition scan_decide (d : Descriptor) (resources : Json)
    (module : AnsibleModule) (rest : Rest) : M unit :=
  items <- subscript resources "items" ;;
  items <- py_iter items ;;
  acc <- for_each items (init d) (scan_body d module) ;;
  decide d acc module rest.

Definition engine (d : Descriptor) (resources : Json)
    (module : AnsibleModule) (rest : Rest) : M unit :=
  if checks_dict d then
    (if isinstance_dict resources then ret tt else fail_json MsgNotDict) ;;;
    scan_decide d resources module rest
  else scan_decide d resources module rest.

Inductive Kind : Type :=
  | ExternalRouters | Ipv4Pool | Ipv6Pool | AsnPool | VlanPool | VniPool
  | RackTypes | InterfaceMaps | LogicalDevice | Templates
  | BlueprintKind.

Definition param (key : string) (module : AnsibleModule) : M Json :=
  subscript (params module) key.

Definition descr (k : Kind) : Descriptor :=
  match k with
  | ExternalRouters =>
      mkDescriptor true ["display_name"; "id"] "display_name"
        (param "display_name") ["display_name"; "id"]
        "resources/external-routers"
        "External Router does not exist, exiting"
        Resources.external_router_data true
  | Ipv4Pool =>
      mkDescriptor true ["display_name"; "id"] "display_name"
        (param "display_name") ["display_name"; "id"]
        "resources/ip-pools" "IP Pool does not exist, exiting"
        Resources.ipv4_pool_data true
  | Ipv6Pool =>
      mkDescriptor true ["display_name"; "id"] "display_name"
        (param "display_name") ["display_name"; "id"]
        "resources/ipv6-pools" "IPv6 Pool does not exist, exiting"
        Resources.ipv6_pool_data true
  | AsnPool =>
      mkDescriptor true ["display_name"; "id"] "display_name"
        (param "display_name") ["display_name"; "id"]
        "resources/asn-pools" "ASN Pool does not exist, exiting"
        Resources.asn_pool_data true
  | VlanPool =>
      mkDescriptor true ["display_name"; "id"] "display_name"
        (param "display_name") ["display_name"; "id"]
        "resources/vlan-pools" "VLAN Pool does not exist, exiting"
        Resources.vlan_pool_data true
  | VniPool =>
      mkDescriptor true ["display_name"; "id"] "display_name"
        (param "display_name") ["display_name"; "id"]
        "resources/vni-pools" "VNI Pool does not exist, exiting"
        Resources.vni_pool_data true
  | RackTypes =>
      mkDescriptor false ["id"] "id" (param "id") ["id"]
        "design/rack-types" "Rack Type does not exist, exiting"
        Design.rack_types_data false
  | InterfaceMaps =>
      mkDescriptor false ["id"; "label"] "label" (param "label")
        ["id"; "label"]
        "design/interface-maps" "Interface Mapping does not exist, exiting"
        Design.interface_maps_data false
  | LogicalDevice =>
      mkDescriptor false ["display_name"; "id"] "display_name"
        (param "display_name") ["display_name"; "id"]
        "design/logical-devices" "Logical Device does not exist, exiting"
        Design.logical_device_data true
  | Templates =>
      mkDescriptor false ["display_name"; "id"] "display_name"
        (fun module =>
           subscript2 (params module) "design_template" "display_name")
        ["display_name"; "id"]
        "design/templates" "Template does not exist, exiting"
        Design.templates_data false
  | BlueprintKind =>
      mkDescriptor false ["id"; "label"] "label" (param "label")
        ["id"; "label"]
        "blueprints" "Interface Mapping does not exist, exiting"
        Blueprint.design_element_data false
  end.

(** The embedded function of a kind. *)
Definition kind_function (k : Kind) :
    Json -> AnsibleModule -> Rest -> M unit :=
  match k with
  | ExternalRouters => Resources.external_routers
  | Ipv4Pool => Resources.ipv4_pool
  | Ipv6Pool => Resources.ipv6_pool
  | AsnPool => Resources.asn_pool
  | VlanPool => Resources.vlan_pool
  | VniPool => Resources.vni_pool
  | RackTypes => Design.rack_types
  | InterfaceMaps => Design.interface_maps
  | LogicalDevice => Design.logical_device
  | Templates => Design.templates
  | BlueprintKind => Blueprint.build_blueprint
  end.

(** The value of [type] that selects the kind; the blueprint module has no
    such parameter. *)
Definition type_of (k : Kind) : option string :=
  match k with
  | ExternalRouters => Some "external-routers"
  | Ipv4Pool => Some "ip-pools"
  | Ipv6Pool => Some "ipv6-pools"
  | AsnPool => Some "asn-pools"
  | VlanPool => Some "vlan-pools"
  | VniPool => Some "vni-pools"
  | RackTypes => Some "rack-types"
  | InterfaceMaps => Some "interface-maps"
  | LogicalDevice => Some "logical-devices"
  | Templates => Some "templates"
  | BlueprintKind => None
  end.

(** The entry point of the module a kind lives in. *)
Definition main_of (k : Kind) : AnsibleModule -> Rest -> M unit :=
  match k with
  | ExternalRouters | Ipv4Pool | Ipv6Pool | AsnPool | VlanPool | VniPool =>
      Resources.main
  | RackTypes | InterfaceMaps | LogicalDevice | Templates => Design.main
  | BlueprintKind => Blueprint.main
  end.

(** The path of the inventory fetch. *)
Definition fetch_path (k : Kind) : Path :=
  match k with
  | ExternalRouters | Ipv4Pool | Ipv6Pool | AsnPool | VlanPool | VniPool =>
      match type_of k with
      | Some t => [Lit "resources/"; Fmt (JStr t)]
      | None => []
      end
  | RackTypes | InterfaceMaps | LogicalDevice | Templates =>
      match type_of k with
      | Some t => [Lit "design/"; Fmt (JStr t)]
      | None => []
      end
  | BlueprintKind => [Lit "blueprints"]
  end.

(** The declaration selects kind [k]. *)
Definition declares (k : Kind) (module : AnsibleModule) : Prop :=
  match type_of k with
  | Some t => field (params module) "type" = Some (JStr t)
  | None => True
  end.

(** The declared identity value, when the declaration has one. *)
Definition identity_of (k : Kind) (module : AnsibleModule) : option Json :=
  match k with
  | Templates =>
      match field (params module) "design_template" with
      | Some t => field t "display_name"
      | None => None
      end
  | _ => field (params module) (identity_key (descr k))
  end.

(** The values of the keys [fs] of an entry, when it has them all. *)
Fixpoint fields_of (fs : list string) (e : Json) : option (list Json) :=
  match fs with
  | [] => Some []
  | f :: fs' =>
      match field e f, fields_of fs' e with
      | Some v, Some vs => Some (v :: vs)
      | _, _ => None
      end
  end.

Fixpoint store (fs : list string) (vs : list Json) (acc : Dict) : Dict :=
  match fs, vs with
  | f :: fs', v :: vs' => store fs' vs' (setitem acc f v)
  | _, _ => acc
  end.

(** The local record after a match on an entry with the values [vs]. *)
Definition found (d : Descriptor) (vs : list Json) : Dict :=
  setitem (store (copied d) vs (init d)) "provisioned" (JBool true).

(** The record the scan leaves for a matching entry [e]. *)
Definition matched_record (k : Kind) (e : Json) : option Dict :=
  option_map (found (descr k)) (fields_of (copied (descr k)) e).

(** Entry [e] carries the identity [iv]. *)
Definition matches (k : Kind) (iv : Json) (e : Json) : bool :=
  match field e (identity_key (descr k)) with
  | Some v => py_eq v iv
  | None => false
  end.

(** Entry [e] has the identity key, with a value other than [iv]. *)
Definition differs (k : Kind) (iv : Json) (e : Json) : Prop :=
  exists v, field e (identity_key (descr k)) = Some v /\ py_eq v iv = false.

(** Entry [e] can be scanned: it has the identity key and, when it matches,
    the keys the scan copies. *)
Definition scannable (k : Kind) (iv : Json) (e : Json) : Prop :=
  exists v, field e (identity_key (descr k)) = Some v /\
    (py_eq v iv = true -> matched_record k e <> None).

(** One iteration of the scan, on an entry that can be scanned. *)
Definition step (k : Kind) (iv : Json) (acc : Dict) (e : Json) : Dict :=
  if matches k iv e then
    match fields_of (copied (descr k)) e with
    | Some vs =>
        setitem (store (copied (descr k)) vs acc) "provisioned" (JBool true)
    | None => acc
    end
  else acc.

(** The scan as a plain fold, and the last entry that carries [iv]. *)
Definition scan_result (k : Kind) (iv : Json) (xs : list Json) : Dict :=
  fold_left (step k iv) xs (init (descr k)).

(** What a call does once the fetch came back with status 200 and [body]. *)
Definition guarded (body : Json) (m : M unit) : M unit :=
  if isinstance_dict body then m else fail_json MsgNotDict.

(** [m], preceded by the remote call [r]. *)
Definition after (r : Request) (m : M unit) : M unit := (fst m, r :: snd m).

(** The computation never falls through to the next statement. *)
Definition stops {A} (m : M A) : Prop := forall a, fst m <> Ok a.

(** The remote calls of a run that change the remote state. *)
Definition mutations (m : M unit) : list Request := filter is_mutation (snd m).

(** The run ended in [fail_json]. *)
Definition failed (m : M unit) : Prop := exists msg, fst m = Exit (FailJson msg).

(** The record is [init] or the record of some entry: a later match then
    overwrites every key the earlier one set. *)
Definition shaped (k : Kind) (acc : Dict) : Prop :=
  acc = init (descr k) \/
  exists e vs, fields_of (copied (descr k)) e = Some vs /\ acc = found (descr k) vs.

(** The names the design gives to the two per-kind parts of a create. *)
Definition collectionPath (k : Kind) : string := collection (descr k).
Definition buildCreatePayload (k : Kind) : AnsibleModule -> M Dict :=
  payload (descr k).

(** The fetch of kind [k] came back with status 200 and a dict whose
    [items] is the list [xs]. *)
Definition snapshot (k : Kind) (rest : Rest) (xs : list Json) : Prop :=
  status_code (rest (Get (fetch_path k))) = 200%Z /\
  field (json (rest (Get (fetch_path k)))) "items" = Some (JList xs).

(** The declared state. *)
Definition desired (module : AnsibleModule) (state : string) : Prop :=
  field (params module) "state" = Some (JStr state).

(** The last entry of the snapshot, in its order, that carries [iv]. *)
Definition last_match (k : Kind) (iv : Json) (xs : list Json) : option Json :=
  find (matches k iv) (rev xs).

(** The request of a create and of a delete. *)
Definition create_request (k : Kind) (data : Dict) : Request :=
  Post [Lit (collectionPath k)] (JDict data).
Definition delete_request (k : Kind) (id : Json) : Request :=
  Delete [Lit (collectionPath k ++ "/"); Fmt id].

(** [data] of the two branches that change nothing. *)
Definition noop_data (k : Kind) (iv : Json) (xs : list Json) : Json :=
  match last_match k iv xs with
  | None => JStr (missing_msg (descr k))
  | Some e =>
      match matched_record k e with
      | Some record => JDict record
      | None => JNull
      end
  end.

(** The computation is a plain Python expression: a value or an exception,
    and no remote call. *)
Definition pure {A} (m : M A) : Prop :=
  (exists a, m = ret a) \/ (exists e, m = raise e).

(** ** Statements that the code does not meet, as they are worded *)

(** Any fetch body other than a dict with a list under [items] is an error
    and leads to no create or delete. *)
Definition fetch_shape_claim (k : Kind) (module : AnsibleModule)
    (rest : Rest) : Prop :=
  declares k module ->
  status_code (rest (Get (fetch_path k))) = 200%Z ->
  (forall xs, field (json (rest (Get (fetch_path k)))) "items"
              <> Some (JList xs)) ->
  failed (main_of k module rest) /\ mutations (main_of k module rest) = [].

(** The declaration has no value for the identity key: the key is not
    there, or it holds [None], as a parameter that was not given does. *)
Definition missing_identity (k : Kind) (module : AnsibleModule) : Prop :=
  identity_of k module = None \/ identity_of k module = Some JNull.

(** A declaration without identity value fails before any remote call. *)
Definition identity_claim (k : Kind) (module : AnsibleModule)
    (rest : Rest) : Prop :=
  declares k module ->
  missing_identity k module ->
  failed (main_of k module rest) /\ snd (main_of k module rest) = [].

(** Entries without the identity key are skipped without an error. *)
Definition absent_field_claim (k : Kind) (module : AnsibleModule)
    (rest : Rest) (xs : list Json) : Prop :=
  declares k module ->
  snapshot k rest xs ->
  Exists (fun e => field e (identity_key (descr k)) = None) xs ->
  ~ failed (main_of k module rest).

(** ** Concrete declarations and transports *)

(** The IP pool [cicd_test] of the module's examples. *)
Definition cicd_test (state : string) (tags : Json) : AnsibleModule :=
  mkModule (JDict [("type", JStr "ip-pools");
                   ("display_name", JStr "cicd_test");
                   ("subnets", JList [JStr "100.1.1.0/24"]);
                   ("tags", tags);
                   ("state", JStr state)]).

Definition cicd_test_payload : Dict :=
  [("display_name", JStr "cicd_test");
   ("subnets", JList [JDict [("network", JStr "100.1.1.0/24")]]);
   ("tags", JList [])].

(** A rack type, an interface map without label, a blueprint. *)
Definition cicd_rack (state : string) : AnsibleModule :=
  mkModule (JDict [("type", JStr "rack-types");
                   ("access_switches", JList []);
                   ("description", JStr "cicd_rack");
                   ("display_name", JStr "cicd_rack");
                   ("id", JStr "cicd_rack");
                   ("leafs", JList []);
                   ("logical_devices", JList []);
                   ("servers", JList []);
                   ("state", JStr state)]).

Definition unlabelled_map (state : string) : AnsibleModule :=
  mkModule (JDict [("type", JStr "interface-maps");
                   ("device_profile_id", JStr "vEOS");
                   ("logical_device_id", JStr "cicd_leaf");
                   ("interfaces", JList []);
                   ("label", JNull);
                   ("state", JStr state)]).

Definition cicd_blueprint (state : string) : AnsibleModule :=
  mkModule (JDict [("design", JStr "two_stage_l3clos");
                   ("init_type", JStr "template_reference");
                   ("template_id", JStr "cicd_template");
                   ("label", JStr "cicd_blueprint");
                   ("state", JStr state)]).

(** A transport that answers every fetch with status 200 and [body], and
    every create or delete with [status] and [reply]. *)
Definition serving (body : Json) (status : Z) (reply : Json) : Rest :=
  fun r =>
    match r with
    | Get _ => mkResponse 200 body JNull
    | _ => mkResponse status reply JNull
    end.

Definition inventory (xs : list Json) : Json := JDict [("items", JList xs)].

Definition pool (id display_name : string) (subnets : list Json) : Json :=
  JDict [("id", JStr id); ("display_name", JStr display_name);
         ("subnets", JList subnets)].

Definition created : Json := JDict [("id", JStr "7f3a")].
Definition rejected : Json := JDict [("errors", JStr "request rejected")].

(** What the payload of an IP pool makes of one subnet. *)
Definition wrap_network (subnet : Json) : Json := JDict [("network", subnet)].

(** ** What the rest of the development speaks about *)

(** The declared state compares equal to "absent"; every other value, and
    only then, takes the branch of "present". *)
Definition absent_declared (module : AnsibleModule) : bool :=
  match field (params module) "state" with
  | Some state => py_eq state (JStr "absent")
  | None => false
  end.

(** The remote calls a function of kind [k] may make after the fetch: none,
    one delete when the state is absent, one create when it is not. *)
Definition corrective (k : Kind) (module : AnsibleModule)
    (calls : list Request) : Prop :=
  calls = [] \/
  (absent_declared module = true /\ exists id, calls = [delete_request k id]) \/
  (absent_declared module = false /\
   exists data, calls = [create_request k data]).

Definition is_post (r : Request) : bool :=
  match r with Post _ _ => true | _ => false end.

Definition is_delete (r : Request) : bool :=
  match r with Delete _ => true | _ => false end.

(** [for each in x] does not raise. *)
Definition iterable (x : Json) : bool :=
  match x with
  | JList _ | JDict _ | JStr _ => true
  | _ => false
  end.

(** The values of [type] that [core] of resources.py and of design.py
    dispatch on. *)
Definition resource_types : list string :=
  ["ip-pools"; "ipv6-pools"; "external-routers"; "asn-pools"; "vlan-pools";
   "vni-pools"].

Definition design_types : list string :=
  ["logical-devices"; "interface-maps"; "rack-types"; "templates"].

Definition dispatched (types : list string) (type : Json) : bool :=
  existsb (fun t => py_eq type (JStr t)) types.

(** ** The embedded functions are instances of the pattern *)

Lemma kind_function_engine (k : Kind) resources module rest :
  kind_function k resources module rest = engine (descr k) resources module rest.
Proof. destruct k; reflexivity. Qed.

(** ** The monad *)

Lemma bind_ret A B (a : A) (k : A -> M B) : bind (ret a) k = k a.
Proof. unfold bind, ret. destruct (k a); reflexivity. Qed.

Lemma bind_raise A B (e : PyExc) (k : A -> M B) : bind (raise e) k = raise e.
Proof. reflexivity. Qed.

Lemma bind_call A (rest : Rest) (r : Request) (k : Response -> M A) :
  bind (call rest r) k = (fst (k (rest r)), r :: snd (k (rest r))).
Proof. unfold bind, call. destruct (k (rest r)); reflexivity. Qed.

Lemma stops_exit A (o : Outcome) (t : list Request) : @stops A (Exit o, t).
Proof. intros a H; discriminate. Qed.

Lemma stops_raise A (e : PyExc) (t : list Request) : @stops A (Raise e, t).
Proof. intros a H; discriminate. Qed.

Lemma stops_bind A B (m : M A) (k : A -> M B) :
  (forall a, stops (k a)) -> stops (bind m k).
Proof.
  intros Hk b. destruct m as [[a | o | e] t]; cbn; try discriminate.
  specialize (Hk a b). destruct (k a) as [r t']; exact Hk.
Qed.

Lemma stops_then (m k : M unit) : stops m -> m ;;; k = m.
Proof.
  destruct m as [[[] | o | e] t]; intros H; try reflexivity.
  exfalso; exact (H tt eq_refl).
Qed.

Lemma subscript_field x k v : field x k = Some v -> subscript x k = ret v.
Proof.
  destruct x; cbn; try discriminate. intros ->; reflexivity.
Qed.

Lemma subscript_missing x k :
  field x k = None -> exists e, subscript x k = raise e.
Proof.
  destruct x; cbn; eauto. intros ->; eauto.
Qed.

(** ** The scan *)

Lemma copy_fields_store A fs : forall e vs acc (K : Dict -> M A),
  fields_of fs e = Some vs ->
  copy_fields fs e acc K = K (store fs vs acc).
Proof.
  induction fs as [| f fs IH]; intros e vs acc K H; cbn in *.
  - injection H as <-; reflexivity.
  - destruct (field e f) as [v |] eqn:Hf; try discriminate.
    destruct (fields_of fs e) as [vs' |] eqn:Hfs; try discriminate.
    injection H as <-. rewrite (subscript_field _ _ _ Hf), bind_ret.
    cbn. now apply IH.
Qed.

Lemma copy_fields_missing A fs : forall e acc (K : Dict -> M A),
  fields_of fs e = None ->
  exists exc, copy_fields fs e acc K = raise exc.
Proof.
  induction fs as [| f fs IH]; intros e acc K H; cbn in *; try discriminate.
  destruct (field e f) as [v |] eqn:Hf.
  - rewrite (subscript_field _ _ _ Hf), bind_ret.
    destruct (fields_of fs e) eqn:Hfs; try discriminate. now apply IH.
  - destruct (subscript_missing _ _ Hf) as [exc ->]. now exists exc.
Qed.

Lemma declared_identity k module iv :
  identity_of k module = Some iv -> declared (descr k) module = ret iv.
Proof.
  destruct k; cbn; unfold param; try apply subscript_field.
  unfold subscript2.
  destruct (field (params module) "design_template") as [t |] eqn:Ht;
    try discriminate.
  intros H. now rewrite (subscript_field _ _ _ Ht), bind_ret, (subscript_field _ _ _ H).
Qed.

Lemma scan_body_step k module iv e acc :
  declared (descr k) module = ret iv ->
  scannable k iv e ->
  scan_body (descr k) module e acc = ret (step k iv acc e).
Proof.
  intros Hd (v & Hv & Hm). unfold scan_body, step, matches.
  rewrite (subscript_field _ _ _ Hv), bind_ret, Hd, bind_ret, Hv.
  destruct (py_eq v iv); try reflexivity.
  unfold matched_record in Hm.
  destruct (fields_of (copied (descr k)) e) as [vs |] eqn:Hfs.
  - now rewrite (copy_fields_store _ _ _ _ _ _ Hfs).
  - exfalso; now apply Hm.
Qed.

Lemma scan_fold k module iv xs : forall acc,
  declared (descr k) module = ret iv ->
  Forall (scannable k iv) xs ->
  for_each xs acc (scan_body (descr k) module) = ret (fold_left (step k iv) xs acc).
Proof.
  induction xs as [| e xs IH]; intros acc Hd Hxs; cbn; try reflexivity.
  inversion Hxs; subst.
  rewrite (scan_body_step _ _ _ _ _ Hd) by assumption.
  rewrite bind_ret. now apply IH.
Qed.

Lemma differs_scannable k iv e : differs k iv e -> scannable k iv e.
Proof.
  intros (v & Hv & Hne). exists v; split; trivial. congruence.
Qed.

Lemma differs_step k iv acc e : differs k iv e -> step k iv acc e = acc.
Proof.
  intros (v & Hv & Hne). unfold step, matches. now rewrite Hv, Hne.
Qed.

Lemma fold_differs k iv xs : forall acc,
  Forall (differs k iv) xs -> fold_left (step k iv) xs acc = acc.
Proof.
  induction xs as [| e xs IH]; intros acc H; cbn; try reflexivity.
  inversion H; subst. rewrite differs_step by assumption. now apply IH.
Qed.

Ltac fields_inv H :=
  cbn in H;
  repeat match type of H with
         | context [field ?e ?f] =>
             let E := fresh "Hfield" in
             destruct (field e f) eqn:E; try discriminate
         end;
  try (injection H as <-).

Lemma shaped_overwrite k acc e vs :
  shaped k acc ->
  fields_of (copied (descr k)) e = Some vs ->
  setitem (store (copied (descr k)) vs acc) "provisioned" (JBool true)
  = found (descr k) vs.
Proof.
  intros [-> | (e' & vs' & H' & ->)] H.
  - reflexivity.
  - destruct k; fields_inv H; fields_inv H'; reflexivity.
Qed.

Lemma step_shaped k iv acc e : shaped k acc -> shaped k (step k iv acc e).
Proof.
  intros Hs. unfold step. destruct (matches k iv e); trivial.
  destruct (fields_of (copied (descr k)) e) as [vs |] eqn:Hfs; trivial.
  rewrite (shaped_overwrite _ _ _ _ Hs Hfs). right; eauto.
Qed.

Lemma fold_shaped k iv xs : forall acc,
  shaped k acc -> shaped k (fold_left (step k iv) xs acc).
Proof.
  induction xs as [| e xs IH]; intros acc Hs; cbn; trivial.
  apply IH, step_shaped, Hs.
Qed.

Lemma fold_last k iv pre e post vs :
  matches k iv e = true ->
  fields_of (copied (descr k)) e = Some vs ->
  Forall (differs k iv) post ->
  fold_left (step k iv) (pre ++ e :: post) (init (descr k)) = found (descr k) vs.
Proof.
  intros Hm Hfs Hpost. rewrite fold_left_app. cbn.
  rewrite fold_differs by assumption.
  unfold step at 1. rewrite Hm, Hfs.
  apply shaped_overwrite with (e := e); trivial.
  apply fold_shaped. now left.
Qed.

Lemma matches_field k iv e :
  matches k iv e = true ->
  exists v, field e (identity_key (descr k)) = Some v /\ py_eq v iv = true.
Proof.
  unfold matches. destruct (field e (identity_key (descr k))) as [v |];
    try discriminate. eauto.
Qed.

(** ** The decision *)

Lemma found_provisioned k e vs :
  fields_of (copied (descr k)) e = Some vs ->
  lookup "provisioned" (found (descr k) vs) = Some (JBool true).
Proof. intros H. destruct k; fields_inv H; reflexivity. Qed.

Lemma found_id k e vs :
  fields_of (copied (descr k)) e = Some vs ->
  exists i, field e "id" = Some i /\ lookup "id" (found (descr k) vs) = Some i.
Proof. intros H. destruct k; fields_inv H; eauto. Qed.

Lemma decide_stops d acc module rest : stops (decide d acc module rest).
Proof.
  unfold decide. apply stops_bind; intros state.
  destruct (py_eq state (JStr "absent")).
  - apply stops_bind; intros p. destruct (is_True p).
    + apply stops_bind; intros i. rewrite bind_call. intros a H; discriminate.
    + apply stops_exit.
  - apply stops_bind; intros p. apply stops_bind; intros _. apply stops_exit.
Qed.

Lemma scan_decide_stops d resources module rest :
  stops (scan_decide d resources module rest).
Proof.
  unfold scan_decide. do 3 (apply stops_bind; intro). apply decide_stops.
Qed.

Lemma engine_stops d resources module rest :
  stops (engine d resources module rest).
Proof.
  unfold engine. destruct (checks_dict d); try apply scan_decide_stops.
  apply stops_bind; intros _. apply scan_decide_stops.
Qed.

Lemma engine_guarded d resources module rest :
  isinstance_dict resources = true ->
  engine d resources module rest = scan_decide d resources module rest.
Proof.
  intros H. unfold engine. rewrite H. destruct (checks_dict d); trivial.
  now rewrite bind_ret.
Qed.

Lemma decide_absent_unmatched k module rest :
  field (params module) "state" = Some (JStr "absent") ->
  decide (descr k) (init (descr k)) module rest
  = exit_json false (JStr (missing_msg (descr k))).
Proof.
  intros Hs. unfold decide. rewrite (subscript_field _ _ _ Hs), bind_ret.
  destruct k; reflexivity.
Qed.

Lemma decide_absent_matched k module rest e vs :
  field (params module) "state" = Some (JStr "absent") ->
  fields_of (copied (descr k)) e = Some vs ->
  exists i, field e "id" = Some i /\
    decide (descr k) (found (descr k) vs) module rest
    = (Exit (ExitJson true
               (json (rest (Delete [Lit (collection (descr k) ++ "/"); Fmt i])))),
       [Delete [Lit (collection (descr k) ++ "/"); Fmt i]]).
Proof.
  intros Hs Hfs. destruct (found_id _ _ _ Hfs) as (i & Hi & Hl).
  exists i; split; trivial.
  unfold decide. rewrite (subscript_field _ _ _ Hs), bind_ret.
  cbn [py_eq String.eqb Ascii.eqb Bool.eqb andb].
  rewrite (subscript_field (JDict _) "provisioned" _ (found_provisioned _ _ _ Hfs)).
  rewrite bind_ret. cbn [is_True].
  rewrite (subscript_field (JDict _) "id" _ Hl), bind_ret, bind_call.
  reflexivity.
Qed.

Lemma decide_present_matched k module rest e vs :
  field (params module) "state" = Some (JStr "present") ->
  fields_of (copied (descr k)) e = Some vs ->
  decide (descr k) (found (descr k) vs) module rest
  = exit_json false (JDict (found (descr k) vs)).
Proof.
  intros Hs Hfs. unfold decide. rewrite (subscript_field _ _ _ Hs), bind_ret.
  cbn [py_eq String.eqb Ascii.eqb Bool.eqb andb].
  rewrite (subscript_field (JDict _) "provisioned" _ (found_provisioned _ _ _ Hfs)).
  rewrite bind_ret. reflexivity.
Qed.

Lemma decide_present_unmatched k module rest data :
  field (params module) "state" = Some (JStr "present") ->
  payload (descr k) module = ret data ->
  (reads_id (descr k) = true ->
   field (json (rest (Post [Lit (collection (descr k))] (JDict data)))) "id"
   <> None) ->
  decide (descr k) (init (descr k)) module rest
  = (Exit (ExitJson true
             (json (rest (Post [Lit (collection (descr k))] (JDict data))))),
     [Post [Lit (collection (descr k))] (JDict data)]).
Proof.
  intros Hs Hp Hid. unfold decide. rewrite (subscript_field _ _ _ Hs), bind_ret.
  cbn [py_eq String.eqb Ascii.eqb Bool.eqb andb].
  assert (Hi : subscript (JDict (init (descr k))) "provisioned"
               = ret (JBool false)) by (destruct k; reflexivity).
  rewrite Hi, bind_ret. cbn [is_False]. rewrite Hp, bind_ret, bind_call.
  destruct (reads_id (descr k)); try reflexivity.
  destruct (field (json (rest (Post [Lit (collection (descr k))] (JDict data))))
              "id") as [i |] eqn:Hf.
  - rewrite (subscript_field _ _ _ Hf), bind_ret. reflexivity.
  - exfalso. now apply Hid.
Qed.

(** ** From [main] to the scan *)

Lemma try_except_after r m : try_except (after r m) = after r (try_except m).
Proof. destruct m as [[[] | o | e] t]; reflexivity. Qed.

Lemma after_pair (m : M unit) r : (fst m, r :: snd m) = after r m.
Proof. reflexivity. Qed.

Lemma checked_engine_guarded d body module rest :
  checks_dict d = true ->
  engine d body module rest ;;; exit_json false body
  = guarded body (scan_decide d body module rest).
Proof.
  intros Hc. rewrite stops_then by apply engine_stops.
  unfold guarded, engine. rewrite Hc.
  destruct (isinstance_dict body); try reflexivity. now rewrite bind_ret.
Qed.

Lemma unchecked_engine_guarded d body module rest :
  checks_dict d = false ->
  (if isinstance_dict body then ret tt else fail_json MsgNotDict) ;;;
  engine d body module rest ;;; exit_json false body
  = guarded body (scan_decide d body module rest).
Proof.
  intros Hc. rewrite (stops_then (engine _ _ _ _)) by apply engine_stops.
  unfold guarded, engine. rewrite Hc.
  destruct (isinstance_dict body); try reflexivity. now rewrite bind_ret.
Qed.

Ltac to_engine :=
  repeat match goal with
    | |- context [Resources.external_routers ?a ?b ?c] =>
        change (Resources.external_routers a b c)
          with (kind_function ExternalRouters a b c)
    | |- context [Resources.ipv4_pool ?a ?b ?c] =>
        change (Resources.ipv4_pool a b c) with (kind_function Ipv4Pool a b c)
    | |- context [Resources.ipv6_pool ?a ?b ?c] =>
        change (Resources.ipv6_pool a b c) with (kind_function Ipv6Pool a b c)
    | |- context [Resources.asn_pool ?a ?b ?c] =>
        change (Resources.asn_pool a b c) with (kind_function AsnPool a b c)
    | |- context [Resources.vlan_pool ?a ?b ?c] =>
        change (Resources.vlan_pool a b c) with (kind_function VlanPool a b c)
    | |- context [Resources.vni_pool ?a ?b ?c] =>
        change (Resources.vni_pool a b c) with (kind_function VniPool a b c)
    | |- context [Design.rack_types ?a ?b ?c] =>
        change (Design.rack_types a b c) with (kind_function RackTypes a b c)
    | |- context [Design.interface_maps ?a ?b ?c] =>
        change (Design.interface_maps a b c)
          with (kind_function InterfaceMaps a b c)
    | |- context [Design.logical_device ?a ?b ?c] =>
        change (Design.logical_device a b c)
          with (kind_function LogicalDevice a b c)
    | |- context [Design.templates ?a ?b ?c] =>
        change (Design.templates a b c) with (kind_function Templates a b c)
    | |- context [Blueprint.build_blueprint ?a ?b ?c] =>
        change (Blueprint.build_blueprint a b c)
          with (kind_function BlueprintKind a b c)
    end;
  rewrite kind_function_engine.

Lemma main_of_fetch k module rest :
  declares k module ->
  status_code (rest (Get (fetch_path k))) = 200%Z ->
  main_of k module rest
  = after (Get (fetch_path k))
      (try_except
         (guarded (json (rest (Get (fetch_path k))))
            (scan_decide (descr k) (json (rest (Get (fetch_path k))))
               module rest))).
Proof.
  intros Hd Hs.
  destruct k; cbn [declares type_of] in Hd; cbn [fetch_path type_of] in *;
    cbn [main_of];
    unfold Resources.main, Resources.core, Design.main, Design.core,
      Blueprint.main, Blueprint.core;
    rewrite ?(subscript_field _ _ _ Hd), ?bind_ret, bind_call, Hs;
    cbn [negb Z.eqb Pos.eqb fst snd];
    repeat (rewrite ?bind_ret;
            progress cbn [py_eq String.eqb Ascii.eqb Bool.eqb andb]);
    rewrite ?bind_ret;
    to_engine;
    rewrite after_pair, <- try_except_after; f_equal; f_equal.
  all: try (now apply checked_engine_guarded).
  all: try (now apply unchecked_engine_guarded).
Qed.

Lemma snd_try_except m : snd (try_except m) = snd m.
Proof. destruct m as [[[] | o | e] t]; reflexivity. Qed.

Lemma guarded_snapshot body xs m :
  field body "items" = Some (JList xs) -> guarded body m = m.
Proof. destruct body; cbn; try discriminate. reflexivity. Qed.

(** With a well-formed snapshot, a call is the fetch, the scan as a fold,
    and the decision. *)
Lemma main_of_scan k module rest xs iv :
  declares k module ->
  snapshot k rest xs ->
  identity_of k module = Some iv ->
  Forall (scannable k iv) xs ->
  main_of k module rest
  = after (Get (fetch_path k))
      (try_except (decide (descr k) (scan_result k iv xs) module rest)).
Proof.
  intros Hd [Hs Hitems] Hid Hxs.
  rewrite (main_of_fetch _ _ _ Hd Hs), (guarded_snapshot _ _ _ Hitems).
  unfold scan_decide.
  rewrite (subscript_field _ _ _ Hitems), bind_ret. cbn [py_iter].
  rewrite bind_ret.
  rewrite (scan_fold _ _ _ _ _ (declared_identity _ _ _ Hid) Hxs), bind_ret.
  reflexivity.
Qed.

Lemma last_match_split k iv xs : forall e,
  last_match k iv xs = Some e ->
  exists pre post, xs = (pre ++ e :: post)%list /\ matches k iv e = true /\
    Forall (fun x => matches k iv x = false) post.
Proof.
  unfold last_match.
  induction xs as [| y ys IH] using rev_ind; intros e H; cbn in H;
    try discriminate.
  rewrite rev_app_distr in H. cbn in H.
  destruct (matches k iv y) eqn:Hy.
  - injection H as <-. exists ys, []. repeat split; trivial.
  - destruct (IH _ H) as (pre & post & -> & Hm & Hpost).
    exists pre, (post ++ [y])%list. rewrite <- app_assoc. repeat split; trivial.
    apply Forall_app; split; trivial. now constructor.
Qed.

Lemma last_match_none k iv xs :
  last_match k iv xs = None -> Forall (fun x => matches k iv x = false) xs.
Proof.
  unfold last_match. intros H. apply Forall_forall. intros x Hx.
  apply (find_none _ _ H). now apply in_rev in Hx.
Qed.

Lemma scannable_differs k iv xs :
  Forall (scannable k iv) xs ->
  Forall (fun x => matches k iv x = false) xs ->
  Forall (differs k iv) xs.
Proof.
  intros Hs Hm. rewrite Forall_forall in *. intros x Hx.
  destruct (Hs x Hx) as (v & Hv & _). specialize (Hm x Hx).
  unfold matches in Hm. rewrite Hv in Hm. exists v; auto.
Qed.

Lemma scannable_matched k iv e :
  scannable k iv e -> matches k iv e = true ->
  exists vs, fields_of (copied (descr k)) e = Some vs.
Proof.
  intros (v & Hv & Hm) H. unfold matches in H. rewrite Hv in H.
  specialize (Hm H). unfold matched_record in Hm.
  destruct (fields_of (copied (descr k)) e) as [vs |]; eauto.
  exfalso; now apply Hm.
Qed.

Lemma scan_result_unmatched k iv xs :
  Forall (differs k iv) xs -> scan_result k iv xs = init (descr k).
Proof. apply fold_differs. Qed.

Lemma scan_result_matched k iv xs e :
  Forall (scannable k iv) xs ->
  last_match k iv xs = Some e ->
  exists vs, fields_of (copied (descr k)) e = Some vs /\
    scan_result k iv xs = found (descr k) vs.
Proof.
  intros Hxs Hl.
  destruct (last_match_split _ _ _ _ Hl) as (pre & post & -> & Hm & Hpost).
  apply Forall_app in Hxs as [_ Hxs]. inversion Hxs; subst.
  destruct (scannable_matched _ _ _ H1 Hm) as [vs Hvs].
  exists vs; split; trivial.
  apply fold_last; trivial. now apply scannable_differs.
Qed.

Lemma find_skip (f : Json -> bool) l l' :
  Forall (fun x => f x = false) l -> find f (l ++ l') = find f l'.
Proof.
  induction 1 as [| x l Hx _ IH]; cbn; trivial. now rewrite Hx.
Qed.

Lemma last_match_last k iv pre e post :
  matches k iv e = true ->
  Forall (differs k iv) post ->
  last_match k iv (pre ++ e :: post) = Some e.
Proof.
  intros Hm Hpost. unfold last_match.
  rewrite rev_app_distr. cbn. rewrite <- app_assoc, find_skip.
  - cbn. now rewrite Hm.
  - apply Forall_rev. eapply Forall_impl; [| exact Hpost].
    intros x (v & Hv & Hne). unfold matches. now rewrite Hv.
Qed.

(** ** Create, delete and the two branches that change nothing *)

(** C1. Desired state present and no entry of the snapshot carries the
    declared identity (every entry has the identity key, with another value):
    the call makes the fetch and then exactly one create, a POST to the
    kind's collection path with the payload the kind's transformer builds
    from the declaration, and exits with changed = true and the create
    response as data.  The kinds that read the new id off the response
    (pools, external routers, logical devices) need it to be there. *)
Theorem create_once k module rest xs iv data :
  declares k module ->
  desired module "present" ->
  identity_of k module = Some iv ->
  snapshot k rest xs ->
  Forall (differs k iv) xs ->
  buildCreatePayload k module = ret data ->
  (reads_id (descr k) = true ->
   field (json (rest (create_request k data))) "id" <> None) ->
  main_of k module rest
  = (Exit (ExitJson true (json (rest (create_request k data)))),
     [Get (fetch_path k); create_request k data]).
Proof.
  intros Hd Hst Hid Hsnap Hxs Hp Hresp.
  rewrite (main_of_scan _ _ _ _ _ Hd Hsnap Hid)
    by (eapply Forall_impl; [apply differs_scannable | exact Hxs]).
  rewrite (scan_result_unmatched _ _ _ Hxs).
  rewrite (decide_present_unmatched _ _ _ _ Hst Hp Hresp).
  reflexivity.
Qed.

Lemma create_once_witness :
  Resources.main (cicd_test "present" (JList []))
    (serving (inventory [pool "p1" "other" []]) 201 created)
  = (Exit (ExitJson true created),
     [Get [Lit "resources/"; Fmt (JStr "ip-pools")];
      Post [Lit "resources/ip-pools"] (JDict cicd_test_payload)]).
Proof.
  apply (create_once Ipv4Pool (cicd_test "present" (JList []))
           (serving (inventory [pool "p1" "other" []]) 201 created)
           [pool "p1" "other" []] (JStr "cicd_test") cicd_test_payload).
  - reflexivity.
  - reflexivity.
  - reflexivity.
  - split; reflexivity.
  - repeat constructor. exists (JStr "other"). split; reflexivity.
  - reflexivity.
  - intros _. discriminate.
Defined.

(** C2. Desired state absent and some entry carries the declared identity:
    the call makes the fetch and then exactly one delete, to
    collectionPath/id with the id of the matched entry (the last one that
    matches), and exits with changed = true and the body of the delete
    response as data. *)
Theorem delete_on_match k module rest xs iv e :
  declares k module ->
  desired module "absent" ->
  identity_of k module = Some iv ->
  snapshot k rest xs ->
  Forall (scannable k iv) xs ->
  last_match k iv xs = Some e ->
  exists id, field e "id" = Some id /\
    main_of k module rest
    = (Exit (ExitJson true (json (rest (delete_request k id)))),
       [Get (fetch_path k); delete_request k id]).
Proof.
  intros Hd Hst Hid Hsnap Hxs Hl.
  destruct (scan_result_matched _ _ _ _ Hxs Hl) as (vs & Hvs & Hres).
  destruct (decide_absent_matched k module rest e vs Hst Hvs) as (id & Hi & Hdec).
  exists id; split; trivial.
  rewrite (main_of_scan _ _ _ _ _ Hd Hsnap Hid Hxs), Hres, Hdec.
  reflexivity.
Qed.

Lemma delete_on_match_witness :
  exists id, field (pool "p1" "cicd_test" []) "id" = Some id /\
    Resources.main (cicd_test "absent" (JList []))
      (serving (inventory [pool "p1" "cicd_test" []; pool "p2" "other" []])
         200 JNull)
    = (Exit (ExitJson true
         (json (serving (inventory [pool "p1" "cicd_test" []; pool "p2" "other" []])
                  200 JNull (delete_request Ipv4Pool id)))),
       [Get (fetch_path Ipv4Pool); delete_request Ipv4Pool id]).
Proof.
  apply (delete_on_match Ipv4Pool (cicd_test "absent" (JList []))
           (serving (inventory [pool "p1" "cicd_test" []; pool "p2" "other" []])
              200 JNull)
           [pool "p1" "cicd_test" []; pool "p2" "other" []] (JStr "cicd_test")).
  - reflexivity.
  - reflexivity.
  - reflexivity.
  - split; reflexivity.
  - repeat constructor.
    + exists (JStr "cicd_test"). split; [reflexivity | intros _; discriminate].
    + exists (JStr "other"). split; [reflexivity | intros _; discriminate].
  - reflexivity.
Defined.

(** C3. The two branches that change nothing: desired state absent with no
    entry carrying the declared identity, and desired state present with an
    entry that carries it, whatever the other keys of that entry hold.  The
    only remote call is the fetch, the call ends in [exit_json] (not in
    [fail_json], not in an exception) with changed = false; data is the
    "does not exist" message of the kind in the first branch and the record
    of the matched entry in the second. *)
Theorem noop_branches k module rest xs iv :
  declares k module ->
  identity_of k module = Some iv ->
  snapshot k rest xs ->
  Forall (scannable k iv) xs ->
  (desired module "absent" /\ last_match k iv xs = None) \/
  (desired module "present" /\ last_match k iv xs <> None) ->
  main_of k module rest
  = (Exit (ExitJson false (noop_data k iv xs)), [Get (fetch_path k)]).
Proof.
  intros Hd Hid Hsnap Hxs Hcase.
  rewrite (main_of_scan _ _ _ _ _ Hd Hsnap Hid Hxs). unfold noop_data.
  destruct Hcase as [[Hst Hl] | [Hst Hl]].
  - rewrite Hl.
    rewrite scan_result_unmatched
      by (apply scannable_differs; [exact Hxs | now apply last_match_none]).
    now rewrite (decide_absent_unmatched _ _ _ Hst).
  - destruct (last_match k iv xs) as [e |] eqn:He; try congruence.
    destruct (scan_result_matched _ _ _ _ Hxs He) as (vs & Hvs & ->).
    rewrite (decide_present_matched _ _ _ _ _ Hst Hvs).
    unfold matched_record. now rewrite Hvs.
Qed.

Lemma noop_branches_witness :
  Resources.main (cicd_test "present" (JList []))
    (serving (inventory [pool "p1" "cicd_test" [JStr "10.9.9.0/24"]]) 500 rejected)
  = (Exit (ExitJson false
             (JDict [("display_name", JStr "cicd_test"); ("id", JStr "p1");
                     ("provisioned", JBool true)])),
     [Get [Lit "resources/"; Fmt (JStr "ip-pools")]]).
Proof.
  apply (noop_branches Ipv4Pool (cicd_test "present" (JList []))
           (serving (inventory [pool "p1" "cicd_test" [JStr "10.9.9.0/24"]])
              500 rejected)
           [pool "p1" "cicd_test" [JStr "10.9.9.0/24"]] (JStr "cicd_test")).
  - reflexivity.
  - reflexivity.
  - split; reflexivity.
  - repeat constructor.
    exists (JStr "cicd_test"). split; [reflexivity | intros _; discriminate].
  - right. split; [reflexivity | discriminate].
Defined.

(** C4. Two or more entries carry the declared identity: what the scan
    keeps is the last of them in snapshot order.  A delete goes to the id of
    that last entry, and a present no-op reports its record. *)
Theorem last_match_wins k module rest pre e1 mid e2 post iv :
  declares k module ->
  identity_of k module = Some iv ->
  snapshot k rest (pre ++ e1 :: mid ++ e2 :: post) ->
  Forall (scannable k iv) (pre ++ e1 :: mid ++ e2 :: post) ->
  matches k iv e1 = true ->
  matches k iv e2 = true ->
  Forall (differs k iv) post ->
  exists id record,
    field e2 "id" = Some id /\ matched_record k e2 = Some record /\
    (desired module "absent" ->
     main_of k module rest
     = (Exit (ExitJson true (json (rest (delete_request k id)))),
        [Get (fetch_path k); delete_request k id])) /\
    (desired module "present" ->
     main_of k module rest
     = (Exit (ExitJson false (JDict record)), [Get (fetch_path k)])).
Proof.
  intros Hd Hid Hsnap Hxs _ Hm2 Hpost.
  assert (Hl : last_match k iv (pre ++ e1 :: mid ++ e2 :: post) = Some e2).
  { replace (pre ++ e1 :: mid ++ e2 :: post)%list
      with ((pre ++ e1 :: mid) ++ e2 :: post)%list
      by (now rewrite <- app_assoc).
    now apply last_match_last. }
  destruct (scan_result_matched _ _ _ _ Hxs Hl) as (vs & Hvs & Hres).
  destruct (found_id _ _ _ Hvs) as (id & Hi & _).
  exists id, (found (descr k) vs). split; trivial.
  split; [unfold matched_record; now rewrite Hvs |].
  rewrite (main_of_scan _ _ _ _ _ Hd Hsnap Hid Hxs), Hres. split; intros Hst.
  - destruct (decide_absent_matched k module rest e2 vs Hst Hvs)
      as (id' & Hi' & ->).
    rewrite Hi in Hi'. injection Hi' as <-. reflexivity.
  - now rewrite (decide_present_matched _ _ _ _ _ Hst Hvs).
Qed.

Lemma last_match_wins_witness :
  Resources.main (cicd_test "absent" (JList []))
    (serving (inventory [pool "p1" "cicd_test" []; pool "p2" "other" [];
                         pool "p3" "cicd_test" []; pool "p4" "spare" []])
       200 JNull)
  = (Exit (ExitJson true JNull),
     [Get [Lit "resources/"; Fmt (JStr "ip-pools")];
      Delete [Lit "resources/ip-pools/"; Fmt (JStr "p3")]]).
Proof.
  destruct (last_match_wins Ipv4Pool (cicd_test "absent" (JList []))
              (serving (inventory [pool "p1" "cicd_test" []; pool "p2" "other" [];
                                   pool "p3" "cicd_test" []; pool "p4" "spare" []])
                 200 JNull)
              [] (pool "p1" "cicd_test" []) [pool "p2" "other" []]
              (pool "p3" "cicd_test" []) [pool "p4" "spare" []]
              (JStr "cicd_test"))
    as (id & record & Hid & _ & Habsent & _).
  - reflexivity.
  - reflexivity.
  - split; reflexivity.
  - repeat constructor.
    + exists (JStr "cicd_test"). split; [reflexivity | intros _; discriminate].
    + exists (JStr "other"). split; [reflexivity | intros _; discriminate].
    + exists (JStr "cicd_test"). split; [reflexivity | intros _; discriminate].
    + exists (JStr "spare"). split; [reflexivity | intros _; discriminate].
  - reflexivity.
  - reflexivity.
  - repeat constructor. exists (JStr "spare"). split; reflexivity.
  - injection Hid as <-. apply Habsent. reflexivity.
Defined.

(** With desired state present the same snapshot reports the record of
    p3; the path of the delete above reads resources/ip-pools/p3. *)
Example last_match_wins_p3 :
  Resources.main (cicd_test "present" (JList []))
    (serving (inventory [pool "p1" "cicd_test" []; pool "p2" "other" [];
                         pool "p3" "cicd_test" []; pool "p4" "spare" []])
       200 JNull)
  = (Exit (ExitJson false
             (JDict [("display_name", JStr "cicd_test"); ("id", JStr "p3");
                     ("provisioned", JBool true)])),
     [Get [Lit "resources/"; Fmt (JStr "ip-pools")]])
  /\ render [Lit "resources/ip-pools/"; Fmt (JStr "p3")]
     = Some "resources/ip-pools/p3".
Proof. split; reflexivity. Qed.

(** ** The payload of an IP pool *)

Lemma wrap_loop xs : forall acc,
  for_each xs acc (fun each subnets_payload =>
    let networks := [] in
    let networks := setitem networks "network" each in
    ret (subnets_payload ++ [JDict networks])%list)
  = ret (acc ++ map wrap_network xs)%list.
Proof.
  induction xs as [| x xs IH]; intros acc; cbn [for_each map].
  - now rewrite app_nil_r.
  - rewrite bind_ret, IH, <- app_assoc. reflexivity.
Qed.

(** Every subnet becomes a dict with the one key [network], in the order of
    the declaration. *)
Lemma subnets_payload_wraps module xs :
  field (params module) "subnets" = Some (JList xs) ->
  Resources.subnets_payload module = ret (map wrap_network xs).
Proof.
  intros H. unfold Resources.subnets_payload.
  rewrite (subscript_field _ _ _ H), bind_ret. cbn [py_iter].
  rewrite bind_ret. apply wrap_loop.
Qed.

Example subnets_payload_two :
  Resources.subnets_payload
    (mkModule (JDict [("subnets", JList [JStr "10.0.0.0/24"; JStr "10.0.1.0/24"])]))
  = ret [JDict [("network", JStr "10.0.0.0/24")];
         JDict [("network", JStr "10.0.1.0/24")]].
Proof. reflexivity. Qed.

Lemma ipv4_pool_data_of module name xs tags :
  field (params module) "display_name" = Some name ->
  field (params module) "subnets" = Some (JList xs) ->
  field (params module) "tags" = Some tags ->
  Resources.ipv4_pool_data module
  = ret [("display_name", name); ("subnets", JList (map wrap_network xs));
         ("tags", tags)].
Proof.
  intros Hn Hs Ht. unfold Resources.ipv4_pool_data.
  rewrite (subnets_payload_wraps _ _ Hs), bind_ret.
  rewrite (subscript_field _ _ _ Hn), bind_ret.
  rewrite (subscript_field _ _ _ Ht), bind_ret. reflexivity.
Qed.

(** The tags of the payload are those of the declaration: a declaration
    whose [tags] holds [None] sends [None]. *)
Example cicd_test_tags_passed_through :
  Resources.ipv4_pool_data (cicd_test "present" JNull)
  = ret [("display_name", JStr "cicd_test");
         ("subnets", JList [JDict [("network", JStr "100.1.1.0/24")]]);
         ("tags", JNull)].
Proof. reflexivity. Qed.

(** C5. The IP pool cicd_test with the one subnet 100.1.1.0/24, tags the
    empty list and state present, against a snapshot whose items are the
    empty list: after the fetch the call makes exactly one create, to
    resources/ip-pools, with the payload display_name cicd_test, subnets
    [{network: 100.1.1.0/24}], tags [], and exits with changed = true. *)
Theorem cicd_test_scenario module rest :
  field (params module) "type" = Some (JStr "ip-pools") ->
  field (params module) "display_name" = Some (JStr "cicd_test") ->
  field (params module) "subnets" = Some (JList [JStr "100.1.1.0/24"]) ->
  field (params module) "tags" = Some (JList []) ->
  field (params module) "state" = Some (JStr "present") ->
  status_code (rest (Get [Lit "resources/"; Fmt (JStr "ip-pools")])) = 200%Z ->
  field (json (rest (Get [Lit "resources/"; Fmt (JStr "ip-pools")]))) "items"
  = Some (JList []) ->
  field (json (rest (Post [Lit "resources/ip-pools"] (JDict cicd_test_payload))))
    "id" <> None ->
  Resources.main module rest
  = (Exit (ExitJson true
       (json (rest (Post [Lit "resources/ip-pools"] (JDict cicd_test_payload))))),
     [Get [Lit "resources/"; Fmt (JStr "ip-pools")];
      Post [Lit "resources/ip-pools"] (JDict cicd_test_payload)])
  /\ render [Lit "resources/ip-pools"] = Some "resources/ip-pools".
Proof.
  intros Ht Hn Hs Htags Hst Hstatus Hitems Hid. split; try reflexivity.
  change (Resources.main module rest) with (main_of Ipv4Pool module rest).
  rewrite (main_of_scan Ipv4Pool module rest [] (JStr "cicd_test") Ht
             (conj Hstatus Hitems) Hn (Forall_nil _)).
  change (scan_result Ipv4Pool (JStr "cicd_test") []) with (init (descr Ipv4Pool)).
  rewrite (decide_present_unmatched Ipv4Pool module rest cicd_test_payload Hst
             (ipv4_pool_data_of _ _ _ _ Hn Hs Htags) (fun _ => Hid)).
  reflexivity.
Qed.

Lemma cicd_test_scenario_witness :
  Resources.main (cicd_test "present" (JList []))
    (serving (inventory []) 201 created)
  = (Exit (ExitJson true created),
     [Get [Lit "resources/"; Fmt (JStr "ip-pools")];
      Post [Lit "resources/ip-pools"] (JDict cicd_test_payload)])
  /\ render [Lit "resources/ip-pools"] = Some "resources/ip-pools".
Proof.
  apply (cicd_test_scenario (cicd_test "present" (JList []))
           (serving (inventory []) 201 created)); try reflexivity.
  discriminate.
Defined.

(** C10. Blueprint, desired state absent, no entry of the snapshot has the
    declared label: changed = false, and data is the text "Interface Mapping
    does not exist, exiting", the message of the interface maps, not one
    that names the blueprint. *)
Theorem blueprint_absent_message module rest xs label :
  field (params module) "state" = Some (JStr "absent") ->
  field (params module) "label" = Some label ->
  status_code (rest (Get [Lit "blueprints"])) = 200%Z ->
  field (json (rest (Get [Lit "blueprints"]))) "items" = Some (JList xs) ->
  Forall (fun e => exists v, field e "label" = Some v /\ py_eq v label = false)
    xs ->
  Blueprint.main module rest
  = (Exit (ExitJson false (JStr "Interface Mapping does not exist, exiting")),
     [Get [Lit "blueprints"]])
  /\ missing_msg (descr BlueprintKind) = missing_msg (descr InterfaceMaps).
Proof.
  intros Hst Hl Hstatus Hitems Hxs. split; try reflexivity.
  change (Blueprint.main module rest) with (main_of BlueprintKind module rest).
  assert (Hd : Forall (differs BlueprintKind label) xs) by exact Hxs.
  rewrite (main_of_scan BlueprintKind module rest xs label I
             (conj Hstatus Hitems) Hl)
    by (eapply Forall_impl; [apply differs_scannable | exact Hd]).
  rewrite (scan_result_unmatched _ _ _ Hd).
  rewrite (decide_absent_unmatched BlueprintKind _ _ Hst). reflexivity.
Qed.

Lemma blueprint_absent_message_witness :
  Blueprint.main (cicd_blueprint "absent")
    (serving (inventory [JDict [("id", JStr "b1"); ("label", JStr "lab")]])
       200 JNull)
  = (Exit (ExitJson false (JStr "Interface Mapping does not exist, exiting")),
     [Get [Lit "blueprints"]])
  /\ missing_msg (descr BlueprintKind) = missing_msg (descr InterfaceMaps).
Proof.
  apply (blueprint_absent_message (cicd_blueprint "absent")
           (serving (inventory [JDict [("id", JStr "b1"); ("label", JStr "lab")]])
              200 JNull)
           [JDict [("id", JStr "b1"); ("label", JStr "lab")]]
           (JStr "cicd_blueprint")); try reflexivity.
  repeat constructor. exists (JStr "lab"). split; reflexivity.
Defined.

(** ** Failures *)

Lemma subscript_pure x k : pure (subscript x k).
Proof.
  unfold pure, subscript. destruct x; eauto. destruct (lookup k d); eauto.
Qed.

Lemma bind_pure A B (m : M A) (k : A -> M B) :
  pure m -> (forall a, pure (k a)) -> pure (bind m k).
Proof.
  intros [[a ->] | [e ->]] Hk.
  - rewrite bind_ret. apply Hk.
  - right. now exists e.
Qed.

Lemma copy_fields_pure A fs : forall e acc (K : Dict -> M A),
  (forall acc', pure (K acc')) -> pure (copy_fields fs e acc K).
Proof.
  induction fs as [| f fs IH]; intros e acc K HK; cbn; trivial.
  apply bind_pure; [apply subscript_pure | intros v; now apply IH].
Qed.

Lemma declared_pure k module : pure (declared (descr k) module).
Proof.
  destruct k; cbn; unfold param, subscript2; try apply subscript_pure.
  apply bind_pure; [apply subscript_pure | intros; apply subscript_pure].
Qed.

Lemma scan_body_pure k module e acc : pure (scan_body (descr k) module e acc).
Proof.
  unfold scan_body.
  apply bind_pure; [apply subscript_pure | intros l].
  apply bind_pure; [apply declared_pure | intros r].
  destruct (py_eq l r).
  - apply copy_fields_pure. intros acc'. left. now eexists.
  - left. now eexists.
Qed.

(** An entry without the identity key stops the scan with an exception, at
    that entry or at an earlier one. *)
Lemma scan_raises k module xs :
  Exists (fun e => field e (identity_key (descr k)) = None) xs ->
  forall acc, exists exc,
    for_each xs acc (scan_body (descr k) module) = raise exc.
Proof.
  induction 1 as [e xs He | e xs _ IH]; intros acc; cbn [for_each].
  - unfold scan_body. destruct (subscript_missing _ _ He) as [exc ->].
    now exists exc.
  - destruct (scan_body_pure k module e acc) as [[acc' ->] | [exc ->]].
    + rewrite bind_ret. apply IH.
    + now exists exc.
Qed.

(** C6, as worded, fails: a dict whose [items] is an empty dict is not a
    map with a sequence under [items], and the call takes it for an empty
    snapshot and creates the pool. *)
Lemma fetch_shape_counterexample :
  ~ fetch_shape_claim Ipv4Pool (cicd_test "present" (JList []))
      (serving (JDict [("items", JDict [])]) 201 created).
Proof.
  intros H. destruct H as [[msg Hmsg] _].
  - reflexivity.
  - reflexivity.
  - intros xs. discriminate.
  - discriminate.
Qed.

(** C6, amended. The fetch came back with status 200 and a body that is not
    a dict, or a dict without the key [items]: the call ends in [fail_json]
    (with the "not in a dictionary format" message for a body that is no
    dict, with the KeyError on items otherwise) and the fetch is its only
    remote call.  What [items] holds is not examined. *)
Theorem fetch_shape_rejected k module rest :
  declares k module ->
  status_code (rest (Get (fetch_path k))) = 200%Z ->
  field (json (rest (Get (fetch_path k)))) "items" = None ->
  main_of k module rest
  = (Exit (FailJson (if isinstance_dict (json (rest (Get (fetch_path k))))
                     then MsgException (KeyError "items") else MsgNotDict)),
     [Get (fetch_path k)]).
Proof.
  intros Hd Hs Hitems. rewrite (main_of_fetch _ _ _ Hd Hs).
  unfold guarded, scan_decide.
  destruct (json (rest (Get (fetch_path k)))) as [| b | n | s | l | d];
    try reflexivity.
  cbn in Hitems. cbn [isinstance_dict subscript]. rewrite Hitems. reflexivity.
Qed.

Lemma fetch_shape_rejected_witness :
  Resources.main (cicd_test "present" (JList []))
    (serving (JList [pool "p1" "cicd_test" []]) 201 created)
  = (Exit (FailJson MsgNotDict), [Get [Lit "resources/"; Fmt (JStr "ip-pools")]])
  /\ Design.main (cicd_rack "present")
       (serving (JDict [("count", JInt 0)]) 201 created)
     = (Exit (FailJson (MsgException (KeyError "items"))),
        [Get [Lit "design/"; Fmt (JStr "rack-types")]]).
Proof.
  split.
  - apply (fetch_shape_rejected Ipv4Pool (cicd_test "present" (JList []))
             (serving (JList [pool "p1" "cicd_test" []]) 201 created));
      reflexivity.
  - apply (fetch_shape_rejected RackTypes (cicd_rack "present")
             (serving (JDict [("count", JInt 0)]) 201 created));
      reflexivity.
Defined.

(** C7. The status of a create or delete response is never looked at.  A
    rack type whose create is answered with status 500 and an error body, and
    an IP pool whose delete is answered with status 404, both end in
    [exit_json] with changed = true and the error body as data. *)
Theorem failed_mutation_reported_changed :
  Design.main (cicd_rack "present") (serving (inventory []) 500 rejected)
  = (Exit (ExitJson true rejected),
     [Get [Lit "design/"; Fmt (JStr "rack-types")];
      Post [Lit "design/rack-types"]
        (JDict [("access_switches", JList []); ("description", JStr "cicd_rack");
                ("display_name", JStr "cicd_rack"); ("id", JStr "cicd_rack");
                ("leafs", JList []); ("logical_devices", JList []);
                ("servers", JList [])])])
  /\ Resources.main (cicd_test "absent" (JList []))
       (serving (inventory [pool "p1" "cicd_test" []]) 404 rejected)
     = (Exit (ExitJson true rejected),
        [Get [Lit "resources/"; Fmt (JStr "ip-pools")];
         Delete [Lit "resources/ip-pools/"; Fmt (JStr "p1")]])
  /\ status_code (serving (inventory []) 500 rejected
                    (Post [Lit "design/rack-types"] JNull)) = 500%Z.
Proof. repeat split. Qed.

(** C8, as worded, fails: an interface map declared without label is
    fetched, compared and reported as not existing; there is no failure and
    the fetch has been made. *)
Lemma identity_counterexample :
  ~ identity_claim InterfaceMaps (unlabelled_map "absent")
      (serving (inventory [JDict [("id", JStr "m1"); ("label", JStr "leaf_map")]])
         200 JNull).
Proof.
  intros H. destruct H as [_ Htrace].
  - reflexivity.
  - right. reflexivity.
  - discriminate.
Qed.

(** C8, amended. No check of the declared identity precedes the fetch: the
    first remote call of every call is the fetch of the collection.  A
    declaration whose identity value is missing ([None]) is then compared
    like any other: with desired state absent and no entry holding [None]
    at the identity key, the call ends as the no-op "does not exist", with
    changed = false and no failure. *)
Theorem fetch_precedes_identity k module rest xs :
  declares k module ->
  (exists calls, snd (main_of k module rest) = Get (fetch_path k) :: calls) /\
  (identity_of k module = Some JNull ->
   desired module "absent" ->
   snapshot k rest xs ->
   Forall (differs k JNull) xs ->
   main_of k module rest
   = (Exit (ExitJson false (JStr (missing_msg (descr k)))),
      [Get (fetch_path k)])).
Proof.
  intros Hd. split.
  - destruct k; cbn [declares type_of] in Hd; cbn [fetch_path type_of main_of];
      unfold Resources.main, Resources.core, Design.main, Design.core,
        Blueprint.main, Blueprint.core;
      rewrite ?(subscript_field _ _ _ Hd), ?bind_ret, bind_call,
        snd_try_except;
      cbn [snd]; eexists; reflexivity.
  - intros Hid Hst Hsnap Hxs.
    rewrite (main_of_scan _ _ _ _ _ Hd Hsnap Hid)
      by (eapply Forall_impl; [apply differs_scannable | exact Hxs]).
    rewrite (scan_result_unmatched _ _ _ Hxs).
    now rewrite (decide_absent_unmatched _ _ _ Hst).
Qed.

Lemma fetch_precedes_identity_witness :
  (exists calls,
     snd (Design.main (unlabelled_map "absent")
            (serving (inventory [JDict [("id", JStr "m1");
                                        ("label", JStr "leaf_map")]])
               200 JNull))
     = Get [Lit "design/"; Fmt (JStr "interface-maps")] :: calls) /\
  Design.main (unlabelled_map "absent")
    (serving (inventory [JDict [("id", JStr "m1"); ("label", JStr "leaf_map")]])
       200 JNull)
  = (Exit (ExitJson false (JStr "Interface Mapping does not exist, exiting")),
     [Get [Lit "design/"; Fmt (JStr "interface-maps")]]).
Proof.
  destruct (fetch_precedes_identity InterfaceMaps (unlabelled_map "absent")
              (serving (inventory [JDict [("id", JStr "m1");
                                          ("label", JStr "leaf_map")]])
                 200 JNull)
              [JDict [("id", JStr "m1"); ("label", JStr "leaf_map")]])
    as [Hfirst Hnoop].
  - reflexivity.
  - split; [exact Hfirst |]. apply Hnoop.
    + reflexivity.
    + reflexivity.
    + split; reflexivity.
    + repeat constructor. exists (JStr "leaf_map"). split; reflexivity.
Defined.

(** C9, as worded, fails: a snapshot whose one entry has no display_name
    ends the call in [fail_json], with the KeyError of the scan. *)
Lemma absent_field_counterexample :
  ~ absent_field_claim Ipv4Pool (cicd_test "absent" (JList []))
      (serving (inventory [JDict [("id", JStr "p1")]]) 200 JNull)
      [JDict [("id", JStr "p1")]].
Proof.
  intros H. apply H.
  - reflexivity.
  - split; reflexivity.
  - constructor. reflexivity.
  - exists (MsgException (KeyError "display_name")). reflexivity.
Qed.

(** C9, amended. An entry without the identity key is not a non-match: the
    scan raises at it (KeyError), or at an earlier entry, the call ends in
    [fail_json], and the fetch is its only remote call, so nothing is
    created or deleted.  Only entries that have the key with another value
    count as non-matches. *)
Theorem absent_field_fails k module rest xs :
  declares k module ->
  snapshot k rest xs ->
  Exists (fun e => field e (identity_key (descr k)) = None) xs ->
  failed (main_of k module rest) /\
  snd (main_of k module rest) = [Get (fetch_path k)].
Proof.
  intros Hd [Hs Hitems] Hex.
  rewrite (main_of_fetch _ _ _ Hd Hs), (guarded_snapshot _ _ _ Hitems).
  unfold scan_decide.
  rewrite (subscript_field _ _ _ Hitems), bind_ret. cbn [py_iter].
  rewrite bind_ret.
  destruct (scan_raises k module xs Hex (init (descr k))) as [exc ->].
  split; [exists (MsgException exc) |]; reflexivity.
Qed.

Lemma absent_field_fails_witness :
  failed (Resources.main (cicd_test "absent" (JList []))
            (serving (inventory [pool "p1" "other" []; JDict [("id", JStr "p2")]])
               200 JNull)) /\
  snd (Resources.main (cicd_test "absent" (JList []))
         (serving (inventory [pool "p1" "other" []; JDict [("id", JStr "p2")]])
            200 JNull))
  = [Get [Lit "resources/"; Fmt (JStr "ip-pools")]].
Proof.
  apply (absent_field_fails Ipv4Pool (cicd_test "absent" (JList []))
           (serving (inventory [pool "p1" "other" []; JDict [("id", JStr "p2")]])
              200 JNull)
           [pool "p1" "other" []; JDict [("id", JStr "p2")]]).
  - reflexivity.
  - split; reflexivity.
  - right. left. reflexivity.
Defined.

(** ** The remote calls of an arbitrary call *)

Lemma pure_bind A B (m : M A) (k : A -> M B) :
  pure m ->
  (exists a, m = ret a /\ bind m k = k a) \/ (exists e, bind m k = raise e).
Proof.
  intros [[a ->] | [e ->]].
  - left. exists a. split; trivial. apply bind_ret.
  - right. now exists e.
Qed.

Lemma py_iter_pure x : pure (py_iter x).
Proof. unfold pure. destruct x; cbn; eauto. Qed.

Lemma for_each_pure A S (body : A -> S -> M S) xs :
  (forall x s, pure (body x s)) -> forall s, pure (for_each xs s body).
Proof.
  intros Hb. induction xs as [| x xs IH]; intros s; cbn [for_each].
  - left. now eexists.
  - apply bind_pure; [apply Hb | intros s'; apply IH].
Qed.

Lemma ret_pure A (a : A) : pure (ret a).
Proof. left. now exists a. Qed.

Ltac purity :=
  repeat first
    [ apply subscript_pure
    | apply ret_pure
    | apply py_iter_pure
    | apply bind_pure; [| intro]
    | apply for_each_pure; intros ].

Lemma payload_pure k module : pure (payload (descr k) module).
Proof.
  destruct k; cbn [payload descr];
    unfold Resources.external_router_data, Resources.ipv4_pool_data,
      Resources.ipv6_pool_data, Resources.subnets_payload,
      Resources.asn_pool_data, Resources.vlan_pool_data,
      Resources.vni_pool_data, Design.rack_types_data,
      Design.interface_maps_data, Design.logical_device_data,
      Design.templates_data, Blueprint.design_element_data, subscript2;
    purity.
Qed.

Lemma subscript_state module state :
  subscript (params module) "state" = ret state ->
  absent_declared module = py_eq state (JStr "absent").
Proof.
  unfold absent_declared, subscript, field.
  destruct (params module) as [| b | n | s | l | d]; try discriminate.
  destruct (lookup "state" d) as [v |]; try discriminate.
  intros H. now injection H as <-.
Qed.

Lemma decide_calls k acc module rest :
  corrective k module (snd (decide (descr k) acc module rest)).
Proof.
  unfold decide, corrective.
  destruct (subscript_pure (params module) "state")
    as [[state Hstate] | [e He]];
    [rewrite Hstate, bind_ret | rewrite He; now left].
  rewrite (subscript_state _ _ Hstate).
  destruct (py_eq state (JStr "absent")).
  - destruct (subscript_pure (JDict acc) "provisioned") as [[p ->] | [e ->]];
      [rewrite bind_ret | now left].
    destruct (is_True p); [| now left].
    destruct (subscript_pure (JDict acc) "id") as [[id ->] | [e ->]];
      [rewrite bind_ret, bind_call | now left].
    right; left. split; trivial. now exists id.
  - destruct (subscript_pure (JDict acc) "provisioned") as [[p ->] | [e ->]];
      [rewrite bind_ret | now left].
    destruct (is_False p); [| rewrite bind_ret; now left].
    destruct (payload_pure k module) as [[data ->] | [e ->]];
      [rewrite bind_ret, bind_call | now left].
    right; right. split; trivial. exists data.
    destruct (reads_id (descr k)); [| reflexivity].
    destruct (subscript_pure
                (json (rest (Post [Lit (collection (descr k))] (JDict data))))
                "id") as [[id ->] | [e ->]];
      [rewrite bind_ret |]; reflexivity.
Qed.

Lemma scan_decide_calls k body module rest :
  corrective k module (snd (scan_decide (descr k) body module rest)).
Proof.
  unfold scan_decide.
  destruct (subscript_pure body "items") as [[items ->] | [e ->]];
    [rewrite bind_ret | now left].
  destruct (py_iter_pure items) as [[xs ->] | [e ->]];
    [rewrite bind_ret | now left].
  destruct (for_each_pure _ _ (scan_body (descr k) module) xs
              (scan_body_pure k module) (init (descr k)))
    as [[acc ->] | [e ->]]; [rewrite bind_ret | now left].
  apply decide_calls.
Qed.

Lemma engine_calls k body module rest :
  corrective k module (snd (engine (descr k) body module rest)).
Proof.
  unfold engine. destruct (checks_dict (descr k)); [| apply scan_decide_calls].
  destruct (isinstance_dict body); [rewrite bind_ret | now left].
  apply scan_decide_calls.
Qed.

Lemma kind_function_calls k body module rest :
  corrective k module
    (snd (kind_function k body module rest ;;; @exit_json unit false body)).
Proof.
  rewrite kind_function_engine, stops_then by apply engine_stops.
  apply engine_calls.
Qed.

Ltac pick_kind :=
  match goal with
  | |- context [Resources.external_routers _ _ _] => exists ExternalRouters
  | |- context [Resources.ipv4_pool _ _ _] => exists Ipv4Pool
  | |- context [Resources.ipv6_pool _ _ _] => exists Ipv6Pool
  | |- context [Resources.asn_pool _ _ _] => exists AsnPool
  | |- context [Resources.vlan_pool _ _ _] => exists VlanPool
  | |- context [Resources.vni_pool _ _ _] => exists VniPool
  | |- context [Design.rack_types _ _ _] => exists RackTypes
  | |- context [Design.interface_maps _ _ _] => exists InterfaceMaps
  | |- context [Design.logical_device _ _ _] => exists LogicalDevice
  | |- context [Design.templates _ _ _] => exists Templates
  | |- context [Blueprint.build_blueprint _ _ _] => exists BlueprintKind
  | |- _ => exists BlueprintKind
  end.

Ltac after_fetch :=
  pick_kind; eexists; split;
  [ reflexivity
  | first [ now left
          | match goal with
            | |- corrective ?k _ _ => apply (kind_function_calls k)
            end ] ].

Lemma resources_calls module rest :
  snd (Resources.main module rest) = [] \/
  exists type k calls,
    snd (Resources.main module rest)
    = Get [Lit "resources/"; Fmt type] :: calls /\
    corrective k module calls.
Proof.
  unfold Resources.main. rewrite snd_try_except. unfold Resources.core.
  destruct (subscript_pure (params module) "type") as [[type Ht] | [e He]];
    rewrite ?Ht, ?He; [| now left].
  right. exists type. rewrite bind_ret, bind_call. cbn [snd].
  destruct (negb (status_code (rest (Get [Lit "resources/"; Fmt type])) =? 200)%Z);
    [after_fetch |].
  rewrite bind_ret.
  repeat (rewrite ?bind_ret;
          match goal with
          | |- context [if py_eq type ?t then _ else _] =>
              destruct (py_eq type t)
          end; [after_fetch |]).
  rewrite ?bind_ret. after_fetch.
Qed.

Lemma design_calls module rest :
  snd (Design.main module rest) = [] \/
  exists type k calls,
    snd (Design.main module rest)
    = Get [Lit "design/"; Fmt type] :: calls /\
    corrective k module calls.
Proof.
  unfold Design.main. rewrite snd_try_except. unfold Design.core.
  destruct (subscript_pure (params module) "type") as [[type Ht] | [e He]];
    rewrite ?Ht, ?He; [| now left].
  right. exists type. rewrite bind_ret, bind_call. cbn [snd].
  destruct (negb (status_code (rest (Get [Lit "design/"; Fmt type])) =? 200)%Z);
    [after_fetch |].
  rewrite bind_ret.
  destruct (isinstance_dict (json (rest (Get [Lit "design/"; Fmt type]))));
    [| after_fetch].
  rewrite bind_ret.
  repeat (rewrite ?bind_ret;
          match goal with
          | |- context [if py_eq type ?t then _ else _] =>
              destruct (py_eq type t)
          end; [after_fetch |]).
  rewrite ?bind_ret. after_fetch.
Qed.

Lemma blueprint_calls module rest :
  exists calls,
    snd (Blueprint.main module rest) = Get [Lit "blueprints"] :: calls /\
    corrective BlueprintKind module calls.
Proof.
  unfold Blueprint.main. rewrite snd_try_except. unfold Blueprint.core.
  rewrite bind_call. cbn [snd].
  destruct (negb (status_code (rest (Get [Lit "blueprints"])) =? 200)%Z);
    [eexists; split; [reflexivity | now left] |].
  rewrite bind_ret.
  destruct (isinstance_dict (json (rest (Get [Lit "blueprints"]))));
    [| eexists; split; [reflexivity | now left]].
  rewrite bind_ret. eexists; split; [reflexivity |].
  apply (kind_function_calls BlueprintKind).
Qed.

(** Whatever the declaration and the transport: the remote calls of a call
    are nothing at all, or the fetch followed by what [corrective] allows. *)
Lemma main_of_calls k module rest :
  snd (main_of k module rest) = [] \/
  exists path k' calls,
    snd (main_of k module rest) = Get path :: calls /\
    corrective k' module calls.
Proof.
  destruct k; cbn [main_of];
    try (destruct (resources_calls module rest)
           as [H | (type & k' & calls & H & Hc)];
         [now left | right; now exists [Lit "resources/"; Fmt type], k', calls]);
    try (destruct (design_calls module rest)
           as [H | (type & k' & calls & H & Hc)];
         [now left | right; now exists [Lit "design/"; Fmt type], k', calls]).
  destruct (blueprint_calls module rest) as (calls & H & Hc).
  right. now exists [Lit "blueprints"], BlueprintKind, calls.
Qed.

Lemma corrective_shape k module calls :
  corrective k module calls ->
  calls = [] \/ exists r, is_mutation r = true /\ calls = [r].
Proof.
  intros [-> | [[_ [id ->]] | [_ [data ->]]]]; [now left | right | right];
    eexists; (split; [| reflexivity]); reflexivity.
Qed.

(** X1. Whatever is declared and whatever the service answers, a call makes
    no remote call at all, or the fetch alone, or the fetch followed by
    exactly one create or delete: never a second fetch, never two
    mutations, never a mutation before the fetch. *)
Theorem at_most_one_corrective_call k module rest :
  snd (main_of k module rest) = [] \/
  (exists path, snd (main_of k module rest) = [Get path]) \/
  (exists path r, is_mutation r = true /\
     snd (main_of k module rest) = [Get path; r]).
Proof.
  destruct (main_of_calls k module rest)
    as [H | (path & k' & calls & H & Hc)]; [now left | right].
  destruct (corrective_shape _ _ _ Hc) as [-> | (r & Hr & ->)].
  - left. now exists path.
  - right. now exists path, r.
Qed.

(** X2. A call whose declared state is "absent" never issues a create. *)
Theorem absent_never_creates k module rest :
  absent_declared module = true ->
  Forall (fun r => is_post r = false) (snd (main_of k module rest)).
Proof.
  intros Ha.
  destruct (main_of_calls k module rest)
    as [-> | (path & k' & calls & -> & Hc)]; [constructor |].
  constructor; [reflexivity |].
  destruct Hc as [-> | [[_ [id ->]] | [Hp _]]].
  - constructor.
  - repeat constructor.
  - congruence.
Qed.

Lemma absent_never_creates_witness :
  Forall (fun r => is_post r = false)
    (snd (Resources.main (cicd_test "absent" (JList []))
            (serving (inventory [pool "p1" "cicd_test" []]) 200 JNull))).
Proof.
  apply (absent_never_creates Ipv4Pool (cicd_test "absent" (JList []))
           (serving (inventory [pool "p1" "cicd_test" []]) 200 JNull)).
  reflexivity.
Defined.

(** X3. A call whose declared state does not compare equal to "absent"
    (present, any other text, or no state at all) never issues a delete. *)
Theorem present_never_deletes k module rest :
  absent_declared module = false ->
  Forall (fun r => is_delete r = false) (snd (main_of k module rest)).
Proof.
  intros Ha.
  destruct (main_of_calls k module rest)
    as [-> | (path & k' & calls & -> & Hc)]; [constructor |].
  constructor; [reflexivity |].
  destruct Hc as [-> | [[Hp _] | [_ [data ->]]]].
  - constructor.
  - congruence.
  - repeat constructor.
Qed.

Lemma present_never_deletes_witness :
  Forall (fun r => is_delete r = false)
    (snd (Resources.main (cicd_test "present" (JList []))
            (serving (inventory [pool "p1" "cicd_test" []]) 200 JNull))).
Proof.
  apply (present_never_deletes Ipv4Pool (cicd_test "present" (JList []))
           (serving (inventory [pool "p1" "cicd_test" []]) 200 JNull)).
  reflexivity.
Defined.

Lemma resources_core_stops module rest : stops (Resources.core module rest).
Proof.
  unfold Resources.core. repeat (apply stops_bind; intro). apply stops_exit.
Qed.

Lemma design_core_stops module rest : stops (Design.core module rest).
Proof.
  unfold Design.core. repeat (apply stops_bind; intro). apply stops_exit.
Qed.

Lemma blueprint_core_stops module rest : stops (Blueprint.core module rest).
Proof.
  unfold Blueprint.core. repeat (apply stops_bind; intro). apply stops_exit.
Qed.

Lemma try_except_reports m : stops m -> exists o, fst (try_except m) = Exit o.
Proof.
  destruct m as [[[] | o | e] t]; intros H; cbn; eauto.
  exfalso. exact (H tt eq_refl).
Qed.

(** X4. Every call ends in [exit_json] or [fail_json]: no input lets a
    Python exception escape [main], and no path falls off the end of [core]
    without reporting. *)
Theorem main_always_reports k module rest :
  exists outcome, fst (main_of k module rest) = Exit outcome.
Proof.
  destruct k; cbn [main_of]; apply try_except_reports;
    first [ apply resources_core_stops
          | apply design_core_stops
          | apply blueprint_core_stops ].
Qed.

(** X5. A fetch answered with a status other than 200 ends the call in
    [fail_json], with the [info] of the response in the message; the fetch
    is the only remote call, whatever the body and the declared state. *)
Theorem fetch_failure_is_fatal k module rest :
  declares k module ->
  status_code (rest (Get (fetch_path k))) <> 200%Z ->
  main_of k module rest
  = (Exit (FailJson (MsgFetchFailed (info (rest (Get (fetch_path k)))))),
     [Get (fetch_path k)]).
Proof.
  intros Hd Hs. apply Z.eqb_neq in Hs.
  destruct k; cbn [declares type_of] in Hd; cbn [fetch_path type_of] in *;
    cbn [main_of];
    unfold Resources.main, Resources.core, Design.main, Design.core,
      Blueprint.main, Blueprint.core;
    rewrite ?(subscript_field _ _ _ Hd), ?bind_ret, bind_call, Hs;
    reflexivity.
Qed.

Lemma fetch_failure_is_fatal_witness :
  Design.main (cicd_rack "present")
    (fun r => mkResponse 503 (inventory []) (JStr "Service Unavailable"))
  = (Exit (FailJson (MsgFetchFailed (JStr "Service Unavailable"))),
     [Get [Lit "design/"; Fmt (JStr "rack-types")]]).
Proof.
  apply (fetch_failure_is_fatal RackTypes (cicd_rack "present")
           (fun r => mkResponse 503 (inventory []) (JStr "Service Unavailable"))).
  - reflexivity.
  - discriminate.
Defined.

(** X6. A declaration without [type] makes [core] of resources.py and of
    design.py raise while it builds the path of the fetch: the call ends in
    [fail_json] and no remote call is made. *)
Theorem missing_type_fails_before_fetch module rest :
  field (params module) "type" = None ->
  exists exc,
    Resources.main module rest = (Exit (FailJson (MsgException exc)), []) /\
    Design.main module rest = (Exit (FailJson (MsgException exc)), []).
Proof.
  intros H. destruct (subscript_missing _ _ H) as [exc He]. exists exc.
  unfold Resources.main, Resources.core, Design.main, Design.core.
  rewrite He. split; reflexivity.
Qed.

Lemma missing_type_fails_before_fetch_witness :
  exists exc,
    Resources.main (cicd_blueprint "present") (serving (inventory []) 201 created)
    = (Exit (FailJson (MsgException exc)), []) /\
    Design.main (cicd_blueprint "present") (serving (inventory []) 201 created)
    = (Exit (FailJson (MsgException exc)), []).
Proof.
  apply (missing_type_fails_before_fetch (cicd_blueprint "present")
           (serving (inventory []) 201 created)).
  reflexivity.
Defined.

Lemma dispatched_cons t types type :
  dispatched (t :: types) type = false ->
  py_eq type (JStr t) = false /\ dispatched types type = false.
Proof. unfold dispatched. cbn. apply orb_false_elim. Qed.

(** X7. resources.py: a [type] that is none of the six dispatched values
    still goes into the path of the fetch; with status 200 the call then
    reports changed = false with the fetched body as data, whatever that
    body is (no function, hence no dict test, is reached). *)
Theorem unknown_resource_type module rest type :
  field (params module) "type" = Some type ->
  dispatched resource_types type = false ->
  status_code (rest (Get [Lit "resources/"; Fmt type])) = 200%Z ->
  Resources.main module rest
  = (Exit (ExitJson false (json (rest (Get [Lit "resources/"; Fmt type])))),
     [Get [Lit "resources/"; Fmt type]]).
Proof.
  intros Ht Hd Hs. unfold resource_types in Hd.
  repeat (apply dispatched_cons in Hd;
          let H := fresh "Hne" in destruct Hd as [H Hd]).
  unfold Resources.main, Resources.core.
  rewrite (subscript_field _ _ _ Ht), bind_ret, bind_call, Hs.
  cbn [negb Z.eqb Pos.eqb]. rewrite !bind_ret.
  rewrite Hne, Hne0, Hne1, Hne2, Hne3, Hne4. rewrite !bind_ret.
  reflexivity.
Qed.

Lemma unknown_resource_type_witness :
  Resources.main
    (mkModule (JDict [("type", JStr "ip-pool"); ("display_name", JStr "cicd_test");
                      ("state", JStr "present")]))
    (serving (JList []) 201 created)
  = (Exit (ExitJson false (JList [])),
     [Get [Lit "resources/"; Fmt (JStr "ip-pool")]]).
Proof.
  apply (unknown_resource_type
           (mkModule (JDict [("type", JStr "ip-pool");
                             ("display_name", JStr "cicd_test");
                             ("state", JStr "present")]))
           (serving (JList []) 201 created) (JStr "ip-pool")); reflexivity.
Defined.

(** X8. design.py: a [type] that is none of the four dispatched values is
    fetched as well; the dict test comes before the dispatch here, so with
    status 200 a body that is no dict fails, and a dict is reported back with
    changed = false. *)
Theorem unknown_design_type module rest type :
  field (params module) "type" = Some type ->
  dispatched design_types type = false ->
  status_code (rest (Get [Lit "design/"; Fmt type])) = 200%Z ->
  Design.main module rest
  = (Exit (if isinstance_dict (json (rest (Get [Lit "design/"; Fmt type])))
           then ExitJson false (json (rest (Get [Lit "design/"; Fmt type])))
           else FailJson MsgNotDict),
     [Get [Lit "design/"; Fmt type]]).
Proof.
  intros Ht Hd Hs. unfold design_types in Hd.
  repeat (apply dispatched_cons in Hd;
          let H := fresh "Hne" in destruct Hd as [H Hd]).
  unfold Design.main, Design.core.
  rewrite (subscript_field _ _ _ Ht), bind_ret, bind_call, Hs.
  cbn [negb Z.eqb Pos.eqb]. rewrite !bind_ret.
  destruct (isinstance_dict (json (rest (Get [Lit "design/"; Fmt type]))));
    [| reflexivity].
  rewrite !bind_ret. rewrite Hne, Hne0, Hne1, Hne2. rewrite !bind_ret.
  reflexivity.
Qed.

Lemma unknown_design_type_witness :
  Design.main
    (mkModule (JDict [("type", JStr "rack-type"); ("state", JStr "absent")]))
    (serving (inventory []) 200 JNull)
  = (Exit (ExitJson false (inventory [])),
     [Get [Lit "design/"; Fmt (JStr "rack-type")]]).
Proof.
  apply (unknown_design_type
           (mkModule (JDict [("type", JStr "rack-type"); ("state", JStr "absent")]))
           (serving (inventory []) 200 JNull) (JStr "rack-type")); reflexivity.
Defined.

(** The branch of an unmatched declaration whose state is not "absent". *)
Lemma decide_create_branch k module rest state :
  field (params module) "state" = Some state ->
  py_eq state (JStr "absent") = false ->
  decide (descr k) (init (descr k)) module rest
  = (data <- payload (descr k) module ;;
     response <- call rest (Post [Lit (collection (descr k))] (JDict data)) ;;
     if reads_id (descr k) then
       id <- subscript (json response) "id" ;;
       let data := setitem data "id" id in
       @exit_json unit true (json response)
     else @exit_json unit true (json response)) ;;;
    exit_json false (JDict (init (descr k))).
Proof.
  intros Hs Hne. unfold decide.
  rewrite (subscript_field _ _ _ Hs), bind_ret, Hne.
  assert (Hi : subscript (JDict (init (descr k))) "provisioned"
               = ret (JBool false)) by (destruct k; reflexivity).
  rewrite Hi, bind_ret. reflexivity.
Qed.

(** X9. The kinds that read the id off the create response (pools, external
    routers, logical devices): when the response has none, the call ends in
    [fail_json] (KeyError on id for a dict, TypeError for any other body),
    after the create has been issued. *)
Theorem create_without_id_fails_after_post k module rest xs iv data :
  declares k module ->
  desired module "present" ->
  identity_of k module = Some iv ->
  snapshot k rest xs ->
  Forall (differs k iv) xs ->
  buildCreatePayload k module = ret data ->
  reads_id (descr k) = true ->
  field (json (rest (create_request k data))) "id" = None ->
  main_of k module rest
  = (Exit (FailJson (MsgException
             (if isinstance_dict (json (rest (create_request k data)))
              then KeyError "id" else TypeError))),
     [Get (fetch_path k); create_request k data]).
Proof.
  intros Hd Hst Hid Hsnap Hxs Hp Hr Hnone.
  rewrite (main_of_scan _ _ _ _ _ Hd Hsnap Hid)
    by (eapply Forall_impl; [apply differs_scannable | exact Hxs]).
  rewrite (scan_result_unmatched _ _ _ Hxs).
  rewrite (decide_create_branch k module rest (JStr "present") Hst eq_refl).
  unfold buildCreatePayload in Hp. rewrite Hp, bind_ret, bind_call, Hr.
  unfold create_request, collectionPath in *.
  destruct (json (rest (Post [Lit (collection (descr k))] (JDict data))))
    as [| b | n | s | l | d]; try reflexivity.
  cbn in Hnone. cbn [subscript isinstance_dict]. rewrite Hnone. reflexivity.
Qed.

Lemma create_without_id_fails_after_post_witness :
  Resources.main (cicd_test "present" (JList []))
    (serving (inventory []) 422 rejected)
  = (Exit (FailJson (MsgException (KeyError "id"))),
     [Get [Lit "resources/"; Fmt (JStr "ip-pools")];
      Post [Lit "resources/ip-pools"] (JDict cicd_test_payload)]).
Proof.
  apply (create_without_id_fails_after_post Ipv4Pool
           (cicd_test "present" (JList []))
           (serving (inventory []) 422 rejected) [] (JStr "cicd_test")
           cicd_test_payload); try reflexivity.
  - split; reflexivity.
  - constructor.
Defined.

Lemma payload_error_run k module rest xs iv state exc :
  declares k module ->
  field (params module) "state" = Some state ->
  py_eq state (JStr "absent") = false ->
  identity_of k module = Some iv ->
  snapshot k rest xs ->
  Forall (differs k iv) xs ->
  payload (descr k) module = raise exc ->
  main_of k module rest
  = (Exit (FailJson (MsgException exc)), [Get (fetch_path k)]).
Proof.
  intros Hd Hst Hne Hid Hsnap Hxs Hp.
  rewrite (main_of_scan _ _ _ _ _ Hd Hsnap Hid)
    by (eapply Forall_impl; [apply differs_scannable | exact Hxs]).
  rewrite (scan_result_unmatched _ _ _ Hxs).
  rewrite (decide_create_branch k module rest state Hst Hne), Hp.
  reflexivity.
Qed.

(** X10. Desired state present, nothing matches, and the payload cannot be
    built because the declaration lacks a key the payload reads: the call
    ends in [fail_json] with that exception and the create is never
    issued. *)
Theorem payload_error_no_create k module rest xs iv exc :
  declares k module ->
  desired module "present" ->
  identity_of k module = Some iv ->
  snapshot k rest xs ->
  Forall (differs k iv) xs ->
  buildCreatePayload k module = raise exc ->
  main_of k module rest
  = (Exit (FailJson (MsgException exc)), [Get (fetch_path k)]).
Proof.
  intros Hd Hst Hid Hsnap Hxs Hp.
  now apply (payload_error_run k module rest xs iv (JStr "present") exc).
Qed.

Lemma payload_error_no_create_witness :
  Design.main
    (mkModule (JDict [("type", JStr "logical-devices");
                      ("display_name", JStr "cicd_leaf");
                      ("state", JStr "present")]))
    (serving (inventory []) 201 created)
  = (Exit (FailJson (MsgException (KeyError "panels"))),
     [Get [Lit "design/"; Fmt (JStr "logical-devices")]]).
Proof.
  apply (payload_error_no_create LogicalDevice
           (mkModule (JDict [("type", JStr "logical-devices");
                             ("display_name", JStr "cicd_leaf");
                             ("state", JStr "present")]))
           (serving (inventory []) 201 created) [] (JStr "cicd_leaf")
           (KeyError "panels")); try reflexivity.
  - split; reflexivity.
  - constructor.
Defined.

Lemma subnets_not_iterable module subnets :
  field (params module) "subnets" = Some subnets ->
  iterable subnets = false ->
  Resources.subnets_payload module = raise TypeError.
Proof.
  intros Hs Hi. unfold Resources.subnets_payload.
  rewrite (subscript_field _ _ _ Hs), bind_ret.
  destruct subnets; try discriminate; reflexivity.
Qed.

(** X11. An IPv4 or IPv6 pool declared present with [subnets] that cannot
    be iterated (None, as when the parameter is left out, a number or a
    boolean) and matching nothing: the payload loop raises TypeError, the
    call ends in [fail_json] and no create is issued. *)
Theorem pool_without_subnets_fails k module rest xs iv subnets :
  k = Ipv4Pool \/ k = Ipv6Pool ->
  declares k module ->
  desired module "present" ->
  identity_of k module = Some iv ->
  snapshot k rest xs ->
  Forall (differs k iv) xs ->
  field (params module) "subnets" = Some subnets ->
  iterable subnets = false ->
  main_of k module rest
  = (Exit (FailJson (MsgException TypeError)), [Get (fetch_path k)]).
Proof.
  intros Hk Hd Hst Hid Hsnap Hxs Hs Hi.
  apply (payload_error_run k module rest xs iv (JStr "present") TypeError);
    trivial.
  destruct Hk as [-> | ->]; cbn [payload descr];
    unfold Resources.ipv4_pool_data, Resources.ipv6_pool_data;
    now rewrite (subnets_not_iterable _ _ Hs Hi).
Qed.

Lemma pool_without_subnets_fails_witness :
  Resources.main
    (mkModule (JDict [("type", JStr "ipv6-pools");
                      ("display_name", JStr "cicd_test");
                      ("subnets", JNull); ("tags", JList []);
                      ("state", JStr "present")]))
    (serving (inventory []) 201 created)
  = (Exit (FailJson (MsgException TypeError)),
     [Get [Lit "resources/"; Fmt (JStr "ipv6-pools")]]).
Proof.
  apply (pool_without_subnets_fails Ipv6Pool
           (mkModule (JDict [("type", JStr "ipv6-pools");
                             ("display_name", JStr "cicd_test");
                             ("subnets", JNull); ("tags", JList []);
                             ("state", JStr "present")]))
           (serving (inventory []) 201 created) [] (JStr "cicd_test") JNull);
    try reflexivity.
  - now right.
  - split; reflexivity.
  - constructor.
Defined.

(** X12. The payload of an IPv4 and of an IPv6 pool: display_name and tags
    as declared, and one dict with the single key [network] per declared
    subnet, as many as declared and in the declared order. *)
Theorem pool_payload_wraps_subnets k module name xs tags :
  k = Ipv4Pool \/ k = Ipv6Pool ->
  field (params module) "display_name" = Some name ->
  field (params module) "subnets" = Some (JList xs) ->
  field (params module) "tags" = Some tags ->
  buildCreatePayload k module
  = ret [("display_name", name); ("subnets", JList (map wrap_network xs));
         ("tags", tags)].
Proof.
  intros Hk Hn Hs Ht.
  destruct Hk as [-> | ->]; unfold buildCreatePayload; cbn [payload descr];
    unfold Resources.ipv4_pool_data, Resources.ipv6_pool_data;
    rewrite (subnets_payload_wraps _ _ Hs), bind_ret,
      (subscript_field _ _ _ Hn), bind_ret,
      (subscript_field _ _ _ Ht), bind_ret;
    reflexivity.
Qed.

Lemma pool_payload_wraps_subnets_witness :
  buildCreatePayload Ipv6Pool
    (mkModule (JDict [("display_name", JStr "cicd_v6");
                      ("subnets", JList [JStr "2001:db8::192:168:10:251/112";
                                         JStr "2001:db8::192:168:20:251/112"]);
                      ("tags", JList [JStr "lab"])]))
  = ret [("display_name", JStr "cicd_v6");
         ("subnets",
          JList [JDict [("network", JStr "2001:db8::192:168:10:251/112")];
                 JDict [("network", JStr "2001:db8::192:168:20:251/112")]]);
         ("tags", JList [JStr "lab"])].
Proof.
  apply (pool_payload_wraps_subnets Ipv6Pool
           (mkModule (JDict [("display_name", JStr "cicd_v6");
                             ("subnets",
                              JList [JStr "2001:db8::192:168:10:251/112";
                                     JStr "2001:db8::192:168:20:251/112"]);
                             ("tags", JList [JStr "lab"])]))
           (JStr "cicd_v6")
           [JStr "2001:db8::192:168:10:251/112";
            JStr "2001:db8::192:168:20:251/112"]
           (JList [JStr "lab"])); try reflexivity.
  now right.
Defined.



Example matches_is_case_sensitive :
  matches Ipv4Pool (JStr "cicd_test") (pool "p1" "CICD_test" []) = false /\
  matches Ipv4Pool (JStr "cicd_test") (pool "p1" "cicd_test " []) = false.
Proof. split; reflexivity. Qed.

(** X14. The declared state is only ever compared with "absent".  Any other
    value (a different spelling such as "Absent" included) is handled as
    present: with nothing matching, the call creates the resource. *)
Theorem state_other_than_absent_creates k module rest xs iv state data :
  declares k module ->
  field (params module) "state" = Some state ->
  py_eq state (JStr "absent") = false ->
  identity_of k module = Some iv ->
  snapshot k rest xs ->
  Forall (differs k iv) xs ->
  buildCreatePayload k module = ret data ->
  (reads_id (descr k) = true ->
   field (json (rest (create_request k data))) "id" <> None) ->
  main_of k module rest
  = (Exit (ExitJson true (json (rest (create_request k data)))),
     [Get (fetch_path k); create_request k data]).
Proof.
  intros Hd Hst Hne Hid Hsnap Hxs Hp Hresp.
  rewrite (main_of_scan _ _ _ _ _ Hd Hsnap Hid)
    by (eapply Forall_impl; [apply differs_scannable | exact Hxs]).
  rewrite (scan_result_unmatched _ _ _ Hxs).
  rewrite (decide_create_branch k module rest state Hst Hne).
  unfold buildCreatePayload in Hp. rewrite Hp, bind_ret, bind_call.
  unfold create_request, collectionPath in *.
  destruct (reads_id (descr k)); [| reflexivity].
  destruct (field (json (rest (Post [Lit (collection (descr k))] (JDict data))))
              "id") as [i |] eqn:Hf; [| exfalso; now apply Hresp].
  rewrite (subscript_field _ _ _ Hf), bind_ret. reflexivity.
Qed.

Lemma state_other_than_absent_creates_witness :
  Resources.main (cicd_test "Absent" (JList []))
    (serving (inventory []) 201 created)
  = (Exit (ExitJson true created),
     [Get [Lit "resources/"; Fmt (JStr "ip-pools")];
      Post [Lit "resources/ip-pools"] (JDict cicd_test_payload)]).
Proof.
  apply (state_other_than_absent_creates Ipv4Pool
           (cicd_test "Absent" (JList []))
           (serving (inventory []) 201 created) [] (JStr "cicd_test")
           (JStr "Absent") cicd_test_payload); try reflexivity.
  - split; reflexivity.
  - constructor.
  - intros _. discriminate.
Defined.


